(** * urlwatch job model (lib/urlwatch/jobs.py)

    A shallow embedding of the job classes of urlwatch: construction and
    field validation, serialisation and kind auto-detection, identity
    (GUID), the HTTP retrieval of [UrlJob] and the event-loop checks of
    [AsyncJob] / [BrowserJob].

    Conventions.
    - A Python [dict] with [str] keys is a [gmap string _]; the order of its
      entries is not recorded.
    - A Python [str] is a Rocq [string]: the bytes of its UTF-8 encoding.
      [bytes] values are [list byte].
    - Exceptions are values of [exn]; a call that may raise returns a
      [result].  A message built with [%] keeps its template and arguments. *)

From Stdlib Require Import ZArith String Ascii List Lia.
From Stdlib.Strings Require Import Byte.
From stdpp Require Import gmap strings list fin_maps.

Local Open Scope string_scope.
Local Open Scope Z_scope.
Local Open Scope list_scope.

#[local] Set Warnings "-register-all".

(** ** Python values *)

(** The values a job attribute or a record entry can hold.  [VLoop l] is a
    handle on the event loop numbered [l]. *)
Inductive value : Type :=
  | VNone
  | VBool (b : bool)
  | VInt (z : Z)
  | VStr (s : string)
  | VDict (d : gmap string value)
  | VLoop (l : nat).

Abbreviation pydict := (gmap string value).

(** Truth value of an object, as tested by [if x:] and [not x]. *)
Definition truthy (v : value) : bool :=
  match v with
  | VNone => false
  | VBool b => b
  | VInt z => negb (z =? 0)
  | VStr s => negb (String.eqb s "")
  | VDict d => match map_to_list d with [] => false | _ => true end
  | VLoop _ => true
  end.

(** [x is None] *)
Definition is_none (v : value) : bool :=
  match v with VNone => true | _ => false end.

(** [k in d] for a dict [d]. *)
Definition contains (d : pydict) (k : string) : bool :=
  match d !! k with Some _ => true | None => false end.

(** The keys of a dict, as iterated by [for key in d]. *)
Definition keys (d : pydict) : list string := (map_to_list d).*1.

(** [k in t] for a tuple of names [t]. *)
Definition in_tuple (k : string) (t : list string) : bool :=
  existsb (String.eqb k) t.

(** The value of a byte. *)
Definition byte_val (b : byte) : Z := Z.of_N (Byte.to_N b).

(** [s.encode('utf-8')] *)
Definition encode_utf8 (s : string) : list byte := list_byte_of_string s.

(** ** Exceptions *)

(** An argument interpolated into a message template. *)
Inductive fmt_arg : Type :=
  | ArgStr (s : string)          (* [%s] of a str *)
  | ArgDict (d : pydict)         (* [%r] of a dict *)
  | ArgList (l : list string).   (* [%r] of a list of str *)

Inductive exn : Type :=
  | ValueError (template : string) (args : list fmt_arg)
  | KeyError (key : value)
  | TypeError (msg : string)
  | AttributeError (name : string)
  | NotImplementedError
  | RuntimeError (msg : string)
  | NotModifiedError
  | HTTPError (status_code : Z)
  | UnicodeDecodeError
  | LookupError
  | ExternalError (what : string).

Inductive result (A : Type) : Type :=
  | Ok (a : A)
  | Raise (e : exn).
Arguments Ok {A} a.
Arguments Raise {A} e.

#[global] Instance result_ret : MRet result := fun A a => Ok a.
#[global] Instance result_bind : MBind result := fun A B f m =>
  match m with Ok a => f a | Raise e => Raise e end.


(** ** SHA-1 ([hashlib.new('sha1')]) *)

Module SHA1.

(** A 32-bit word, and addition and rotation on words. *)
Definition w32 (x : Z) : Z := x mod 2^32.
Definition add32 (x y : Z) : Z := w32 (x + y).
Definition rotl (n x : Z) : Z :=
  w32 (Z.lor (Z.shiftl x n) (Z.shiftr x (32 - n))).
Definition not32 (x : Z) : Z := Z.lxor x 0xFFFFFFFF.

(** Big-endian bytes of [x], [n] of them. *)
Fixpoint be_bytes (n : nat) (x : Z) : list Z :=
  match n with
  | O => []
  | S n' => (Z.shiftr x (8 * Z.of_nat n')) mod 256 :: be_bytes n' x
  end.

(** The message followed by the bit 1, zeros up to 56 modulo 64 bytes, and
    its length in bits on 64 bits. *)
Definition pad (msg : list Z) : list Z :=
  let len := Z.of_nat (length msg) in
  msg ++ [0x80] ++ replicate (Z.to_nat ((55 - len) mod 64)) 0
      ++ be_bytes 8 (8 * len).

Fixpoint be_words (bs : list Z) (n : nat) : list Z :=
  match n, bs with
  | S n', b0 :: b1 :: b2 :: b3 :: rest =>
      (((b0 * 256 + b1) * 256 + b2) * 256 + b3) :: be_words rest n'
  | _, _ => []
  end.

(** The message schedule: [n] more words after the reversed list [rev_w]. *)
Fixpoint schedule (n : nat) (rev_w : list Z) : list Z :=
  match n with
  | O => rev rev_w
  | S n' =>
      let w := rotl 1 (Z.lxor (Z.lxor (nth 2 rev_w 0) (nth 7 rev_w 0))
                              (Z.lxor (nth 13 rev_w 0) (nth 15 rev_w 0))) in
      schedule n' (w :: rev_w)
  end.

Definition state : Type := Z * Z * Z * Z * Z.

Definition round (t : Z) (s : state) (w : Z) : state :=
  let '(a, b, c, d, e) := s in
  let '(f, k) :=
    if t <? 20 then (Z.lor (Z.land b c) (Z.land (not32 b) d), 0x5A827999)
    else if t <? 40 then (Z.lxor (Z.lxor b c) d, 0x6ED9EBA1)
    else if t <? 60 then
      (Z.lor (Z.lor (Z.land b c) (Z.land b d)) (Z.land c d), 0x8F1BBCDC)
    else (Z.lxor (Z.lxor b c) d, 0xCA62C1D6) in
  let temp := w32 (rotl 5 a + f + e + k + w) in
  (temp, a, rotl 30 b, c, d).

Fixpoint rounds (t : Z) (ws : list Z) (s : state) : state :=
  match ws with
  | [] => s
  | w :: ws' => rounds (t + 1) ws' (round t s w)
  end.

Definition compress (h : state) (block : list Z) : state :=
  let ws := schedule 64 (rev (be_words block 16)) in
  let '(h0, h1, h2, h3, h4) := h in
  let '(a, b, c, d, e) := rounds 0 ws h in
  (add32 h0 a, add32 h1 b, add32 h2 c, add32 h3 d, add32 h4 e).

Fixpoint blocks (n : nat) (bs : list Z) (h : state) : state :=
  match n with
  | O => h
  | S n' => blocks n' (drop 64 bs) (compress h (take 64 bs))
  end.

Definition init : state :=
  (0x67452301, 0xEFCDAB89, 0x98BADCFE, 0x10325476, 0xC3D2E1F0).

Definition digest (msg : list byte) : state :=
  let padded := pad (byte_val <$> msg) in
  blocks (length padded / 64)%nat padded init.

Definition hex_digit (x : Z) : ascii :=
  match String.get (Z.to_nat x) "0123456789abcdef" with
  | Some c => c
  | None => "0"%char
  end.

Fixpoint hex (n : nat) (x : Z) : string :=
  match n with
  | O => ""
  | S n' => String (hex_digit ((Z.shiftr x (4 * Z.of_nat n')) mod 16)) (hex n' x)
  end.

Definition hexstate (s : state) : string :=
  let '(h0, h1, h2, h3, h4) := s in
  (hex 8 h0 ++ hex 8 h1 ++ hex 8 h2 ++ hex 8 h3 ++ hex 8 h4)%string.

Definition hexdigest (msg : list byte) : string := hexstate (digest msg).

End SHA1.

(** ** Codecs ([bytes.decode]) *)

Module Codec.

Definition byte_of (z : Z) : byte :=
  match Byte.of_N (Z.to_N z) with Some b => b | None => x00 end.

(** A continuation byte, 10xxxxxx. *)
Definition is_cont (b : byte) : bool :=
  (0x80 <=? byte_val b) && (byte_val b <=? 0xBF).

(** The second byte of a sequence led by [b0]: a continuation byte that
    keeps the sequence from being overlong, a surrogate, or above U+10FFFF. *)
Definition second_ok (b0 b1 : byte) : bool :=
  is_cont b1 &&
  (if byte_val b0 =? 0xE0 then 0xA0 <=? byte_val b1
   else if byte_val b0 =? 0xED then byte_val b1 <? 0xA0
   else if byte_val b0 =? 0xF0 then 0x90 <=? byte_val b1
   else if byte_val b0 =? 0xF4 then byte_val b1 <? 0x90
   else true).

(** Continuation bytes announced by a lead byte; [None] for a byte that
    cannot start a sequence. *)
Definition trail (b0 : byte) : option nat :=
  let v := byte_val b0 in
  if v <? 0x80 then Some 0%nat
  else if v <? 0xC2 then None
  else if v <? 0xE0 then Some 1%nat
  else if v <? 0xF0 then Some 2%nat
  else if v <? 0xF5 then Some 3%nat
  else None.

(** The UTF-8 decoder.  On malformed input the strict decoder raises; with
    the [ignore] handler the bytes in error are skipped (the lead byte alone,
    the well-formed start of a broken sequence, or a truncated sequence at
    the end) and decoding resumes after them. *)
Fixpoint utf8_decode (ignore : bool) (bs : list byte) : result (list byte) :=
  let skip (rest : result (list byte)) :=
    if ignore then rest else Raise UnicodeDecodeError in
  match bs with
  | [] => Ok []
  | b0 :: r0 =>
      match trail b0 with
      | None => skip (utf8_decode ignore r0)
      | Some O => s ← utf8_decode ignore r0; Ok (b0 :: s)
      | Some (S n1) =>
          match r0 with
          | [] => skip (Ok [])
          | b1 :: r1 =>
              if negb (second_ok b0 b1) then skip (utf8_decode ignore r0)
              else match n1 with
              | O => s ← utf8_decode ignore r1; Ok (b0 :: b1 :: s)
              | S n2 =>
                  match r1 with
                  | [] => skip (Ok [])
                  | b2 :: r2 =>
                      if negb (is_cont b2) then skip (utf8_decode ignore r1)
                      else match n2 with
                      | O => s ← utf8_decode ignore r2; Ok (b0 :: b1 :: b2 :: s)
                      | S _ =>
                          match r2 with
                          | [] => skip (Ok [])
                          | b3 :: r3 =>
                              if negb (is_cont b3) then skip (utf8_decode ignore r2)
                              else s ← utf8_decode ignore r3;
                                   Ok (b0 :: b1 :: b2 :: b3 :: s)
                          end
                      end
                  end
              end
          end
      end
  end.

(** The UTF-8 encoding of a code point below 256. *)
Definition utf8_of_latin1 (b : byte) : list byte :=
  let v := byte_val b in
  if v <? 0x80 then [b]
  else [byte_of (Z.lor 0xC0 (Z.shiftr v 6)); byte_of (Z.lor 0x80 (Z.land v 0x3F))].

Definition latin1_decode (bs : list byte) : list byte :=
  concat (utf8_of_latin1 <$> bs).

Definition ascii_decode (ignore : bool) (bs : list byte) : result (list byte) :=
  if forallb (fun b => byte_val b <? 0x80) bs then Ok bs
  else if ignore then Ok (List.filter (fun b => byte_val b <? 0x80) bs)
  else Raise UnicodeDecodeError.

(** [content.decode(encoding, errors)].  The codec names and error handlers
    that jobs.py passes are the ones modelled; any other name is taken as
    unknown to the codec registry, which raises [LookupError]. *)
Definition bytes_decode (encoding errors : string) (content : list byte)
    : result string :=
  ignore ← (if String.eqb errors "strict" then Ok false
            else if String.eqb errors "ignore" then Ok true
            else Raise LookupError);
  bs ← (if String.eqb encoding "utf-8" then utf8_decode ignore content
        else if String.eqb encoding "latin1" then Ok (latin1_decode content)
        else if String.eqb encoding "ascii" then ascii_decode ignore content
        else Raise LookupError);
  Ok (string_of_list_byte bs).

End Codec.

(** ** Job classes and instances *)

(** What the code reads from a job class: [__kind__], [__required__],
    [__optional__], whether the class derives from [AsyncJob], and the
    attribute its [get_location] returns ([None] when the class inherits
    the [get_location] of [JobBase]). *)
Record jobclass : Type := JobClass {
  kind : string;
  required : list string;
  optional : list string;
  is_async : bool;
  location_attr : option string
}.

(** An instance: its class and its attribute dictionary. *)
Record job : Type := Job {
  cls : jobclass;
  attrs : pydict
}.

Definition fields (c : jobclass) : list string := required c ++ optional c.

Definition setattr (self : job) (k : string) (v : value) : job :=
  {| cls := cls self; attrs := <[k := v]> (attrs self) |}.

(** [getattr(self, k)], looked up in the attributes of the instance (no
    field of the kinds below bears the name of a method or class attribute). *)
Definition getattr (self : job) (k : string) : result value :=
  match attrs self !! k with
  | Some v => Ok v
  | None => Raise (AttributeError k)
  end.

Module JobBase.

(** [__init__], first loop: optional keys that were not passed are set to
    [None]. *)
Definition set_optional (opt : list string) (kwargs : pydict)
    (a : pydict) : pydict :=
  foldl (fun a k => if contains kwargs k then a else <[k := VNone]> a) a opt.

(** [__init__], second loop: the first required key that was not passed
    raises. *)
Fixpoint check_required (req : list string) (kwargs : pydict) : result unit :=
  match req with
  | [] => Ok tt
  | k :: rest =>
      if contains kwargs k then check_required rest kwargs
      else Raise (ValueError "Required field %s missing: %r"
                    [ArgStr k; ArgDict kwargs])
  end.

(** [JobBase.__init__(self, **kwargs)]; the third loop stores every
    passed key. *)
Definition init (c : jobclass) (kwargs : pydict) : result job :=
  let a := set_optional (optional c) kwargs ∅ in
  _ ← check_required (required c) kwargs;
  Ok {| cls := c; attrs := kwargs ∪ a |}.

(** The comprehension of [to_dict], over the names in [ks]. *)
Fixpoint to_dict_keys (self : job) (ks : list string) (acc : pydict)
    : result pydict :=
  match ks with
  | [] => Ok acc
  | k :: rest =>
      v ← getattr self k;
      if is_none v then to_dict_keys self rest acc
      else to_dict_keys self rest (<[k := v]> acc)
  end.

Definition to_dict (self : job) : result pydict :=
  to_dict_keys self (required (cls self) ++ optional (cls self)) ∅.

Definition serialize (self : job) : result pydict :=
  let d : pydict := {[ "kind" := VStr (kind (cls self)) ]} in
  td ← to_dict self;
  Ok (td ∪ d).

(** [get_location] is abstract in [JobBase]; each kind returns one of its
    attributes. *)
Definition get_location (self : job) : result value :=
  match location_attr (cls self) with
  | Some a => getattr self a
  | None => Raise NotImplementedError
  end.

Definition get_guid (self : job) : result string :=
  location ← get_location self;
  match location with
  | VStr l => Ok (SHA1.hexdigest (encode_utf8 l))
  | _ => Raise (AttributeError "encode")
  end.

End JobBase.

(** The state shared by the jobs: which event loops are running, and the
    class attribute [BrowserJob.browser]. *)
Record world : Type := World {
  running : nat → bool;
  browser : option nat
}.

(** [loop.is_running()] *)
Definition is_running (w : world) (loop : value) : result bool :=
  match loop with
  | VLoop l => Ok (running w l)
  | _ => Raise (AttributeError "is_running")
  end.

Module AsyncJob.

(** [AsyncJob.__init__]: the base initialiser, then [self.loop = None]. *)
Definition init (c : jobclass) (kwargs : pydict) : result job :=
  self ← JobBase.init c kwargs;
  Ok (setattr self "loop" VNone).

Definition setup (self : job) (loop : value) : job :=
  setattr self "loop" loop.

Definition retrieve (w : world) (self : job) : result unit :=
  loop ← getattr self "loop";
  if negb (truthy loop) then Raise (RuntimeError "Event loop not set up")
  else
    r ← is_running w loop;
    if negb r then
      Raise (RuntimeError
        "The event loop must be running when `retrieve` is called on an AsyncJob")
    else Ok tt.

Definition cleanup (w : world) (self : job) : result unit :=
  loop ← getattr self "loop";
  if negb (truthy loop) then
    Raise (RuntimeError "`setup` must be called before `cleanup`")
  else
    r ← is_running w loop;
    if (r : bool) then
      Raise (RuntimeError
        "The event loop should have stopped before `cleanup` is called")
    else Ok tt.

End AsyncJob.

(** Calling the class on keyword arguments runs the initialiser the class
    inherits. *)
Definition construct (c : jobclass) (kwargs : pydict) : result job :=
  if is_async c then AsyncJob.init c kwargs else JobBase.init c kwargs.

(** ** The registry and [unserialize] *)

(** [JobBase.__subclasses__] is a dict from kind to class, filled by the
    metaclass [TrackSubClasses] (urlwatch/util.py) in the order the classes
    are declared.  It is a list of classes here, each under its own
    [__kind__]; a dict has one entry per key, which is [registry_ok]. *)
Definition registry_ok (registry : list jobclass) : Prop :=
  NoDup (kind <$> registry).

(** [cls.__subclasses__[kind]] *)
Definition subclasses_getitem (registry : list jobclass) (k : value)
    : result jobclass :=
  match k with
  | VDict _ => Raise (TypeError "unhashable type: 'dict'")
  | VStr s =>
      match List.find (fun c => String.eqb (kind c) s) registry with
      | Some c => Ok c
      | None => Raise (KeyError k)
      end
  | _ => Raise (KeyError k)
  end.

(** The condition of the auto-detection comprehension. *)
Definition matches (data : pydict) (subclass : jobclass) : bool :=
  forallb (fun r => contains data r) (required subclass)
  && negb (existsb (fun key => negb (in_tuple key (required subclass))
                               && negb (in_tuple key (optional subclass)))
             (keys data)).

Definition autodetect (registry : list jobclass) (data : pydict) : list string :=
  kind <$> List.filter (matches data) registry.

(** [cls.from_dict(data)] *)
Definition from_dict (c : jobclass) (data : pydict) : result job :=
  construct c
    (filter (fun kv => in_tuple kv.1 (required c) || in_tuple kv.1 (optional c))
            data).

Definition unserialize (registry : list jobclass) (data : pydict) : result job :=
  k ← (if negb (contains data "kind") then
         let kinds := autodetect registry data in
         match kinds with
         | [k] => Ok (VStr k)
         | [] => Raise (ValueError "Kind is not specified, and no job matches: %r"
                          [ArgDict data])
         | _ => Raise (ValueError "Multiple kinds of jobs match %r: %r"
                         [ArgDict data; ArgList kinds])
         end
       else
         match data !! "kind" with
         | Some v => Ok v
         | None => Raise (KeyError (VStr "kind"))
         end);
  c ← subclasses_getitem registry k;
  from_dict c data.

(** ** The world outside the job classes *)

(** [job_state]: the cached [etag] and [timestamp] of a job. *)
Record jobstate : Type := JobState {
  etag : value;
  timestamp : value
}.

(** The arguments of [requests.request]. *)
Record http_request : Type := HttpRequest {
  req_url : value;
  req_data : value;
  req_headers : pydict;
  req_method : value;
  req_verify : bool;
  req_cookies : value;
  req_proxies : pydict
}.

(** What the code reads from a [requests] response; [headers_get name] is
    [response.headers.get(name)]. *)
Record response : Type := Response {
  status_code : Z;
  headers_get : string → option string;
  content : list byte;
  text : string
}.

(** The interpreter, libraries and environment the jobs call into. *)
Record runtime : Type := Runtime {
  user_agent : string;                          (* urlwatch.__user_agent__ *)
  getenv : string → value;                      (* os.getenv *)
  formatdate : value → string;                  (* email.utils.formatdate *)
  str_lower : string → string;                  (* str.lower *)
  open_read : string → result string;           (* open(path, 'rt').read() *)
  request : http_request → result response;     (* requests.request *)
  launch : result nat;                          (* pyppeteer.launch() *)
  browser_close : nat → result unit;            (* browser.close() *)
  render : option nat → value → result string   (* BrowserJob._render *)
}.

(** [try: body / except E: handler], [catches] telling the exceptions of
    class [E]. *)
Definition try_except {A : Type} (body : result A) (catches : exn → bool)
    (handler : result A) : result A :=
  match body with
  | Raise e => if catches e then handler else Raise e
  | ok => ok
  end.

Definition is_UnicodeDecodeError (e : exn) : bool :=
  match e with UnicodeDecodeError => true | _ => false end.

Definition is_LookupError (e : exn) : bool :=
  match e with LookupError => true | _ => false end.

(** [s[n:]] *)
Fixpoint str_drop (n : nat) (s : string) : string :=
  match n, s with
  | S n', String _ s' => str_drop n' s'
  | _, _ => s
  end.

(** ** The kinds of jobs.py *)

(** The field tuples below are the ones written in the class bodies, read
    with Python's attribute lookup: [BrowserJob] declares no [__optional__]
    and finds the one of [Job].  The metaclass [TrackSubClasses] is not part
    of jobs.py and may extend the tuples of a class when it registers it;
    every property below is proved for an arbitrary class and registry, and
    these three classes only serve in the examples. *)

(** [Job.__optional__] *)
Definition Job_optional : list string :=
  ["name"; "filter"; "max_tries"; "diff_tool"].

Module ShellJob.

Definition class : jobclass :=
  {| kind := "shell"; required := ["command"]; optional := [];
     is_async := false; location_attr := Some "command" |}.

End ShellJob.

Module UrlJob.

Definition class : jobclass :=
  {| kind := "url"; required := ["url"];
     optional := ["cookies"; "data"; "method"; "ssl_no_verify"; "ignore_cached";
                  "http_proxy"; "https_proxy"; "headers";
                  "ignore_connection_errors"];
     is_async := false; location_attr := Some "url" |}.

(** [CHARSET_RE.match(content_type)].  The pattern is [text/], then [html]
    or [plain], then [; charset=], then a group of any number of characters
    other than a semicolon.  The group also matches the empty string, so the
    pattern matches when one of the two fixed texts starts [content_type]. *)
Definition CHARSET_RE_match (content_type : string) : bool :=
  String.prefix "text/html; charset=" content_type
  || String.prefix "text/plain; charset=" content_type.

Definition add_custom_headers (rt : runtime) (custom headers : pydict) : pydict :=
  let lowered := str_lower rt <$> keys custom in
  let headers_to_remove :=
    List.filter (fun x => bool_decide (str_lower rt x ∈ lowered)) (keys headers) in
  let headers := foldl (fun h header => delete header h) headers headers_to_remove in
  custom ∪ headers.

(** [if self.headers: self.add_custom_headers(headers)], for whatever value
    the attribute holds: a dict is merged, a str makes [headers.update]
    raise, any other true value cannot be iterated. *)
Definition custom_headers (rt : runtime) (custom : value) (headers : pydict)
    : result pydict :=
  if negb (truthy custom) then Ok headers
  else match custom with
       | VDict d => Ok (add_custom_headers rt d headers)
       | VStr _ =>
           Raise (ValueError
             "dictionary update sequence element #0 has length 1; 2 is required" [])
       | _ => Raise (TypeError "object is not iterable")
       end.

(** Code that reads and assigns attributes of [self] and may raise. *)
Definition M (A : Type) : Type := job → result A * job.

Definition ret {A : Type} (a : A) : M A := fun self => (Ok a, self).

Definition bind {A B : Type} (m : M A) (f : A → M B) : M B := fun self =>
  match m self with
  | (Ok a, self') => f a self'
  | (Raise e, self') => (Raise e, self')
  end.

Definition attr (k : string) : M value := fun self => (getattr self k, self).

Definition assign (k : string) (v : value) : M unit := fun self =>
  (Ok tt, setattr self k v).

Definition lift {A : Type} (r : result A) : M A := fun self => (r, self).

Notation "x <- m ;; k" := (bind m (fun x => k))
  (at level 100, m at next level, right associativity, only parsing).

(** What [retrieve] is about to do once the request is prepared. *)
Inductive plan : Type :=
  | ReadFile (path : string)
  | Send (req : http_request).

(** The headers that depend on the cache: lines 226-245. *)
Definition cache_headers (rt : runtime) (job_state : jobstate)
    (ignore_cached : value) : pydict :=
  let headers : pydict := {[ "User-agent" := VStr (user_agent rt) ]} in
  let headers :=
    if negb (is_none (etag job_state))
    then <["If-None-Match" := etag job_state]> headers else headers in
  let headers :=
    if negb (is_none (timestamp job_state))
    then <["If-Modified-Since" := VStr (formatdate rt (timestamp job_state))]> headers
    else headers in
  if truthy ignore_cached then
    <["Expires" := VStr (formatdate rt VNone)]>
      (<["Cache-Control" := VStr "max-age=172800"]>
         (<["If-Modified-Since" := VStr (formatdate rt (VInt 0))]>
            (<["If-None-Match" := VNone]> headers)))
  else headers.

(** [retrieve] up to the call of [requests.request]. *)
Definition prepare (rt : runtime) (job_state : jobstate) : M plan :=
  let proxies : pydict :=
    <["https" := getenv rt "HTTPS_PROXY"]> {[ "http" := getenv rt "HTTP_PROXY" ]} in
  ignore_cached <- attr "ignore_cached";;
  let headers := cache_headers rt job_state ignore_cached in
  method <- attr "method";;
  _ <- (if is_none method then assign "method" (VStr "GET") else ret tt);;
  data <- attr "data";;
  _ <- (if negb (is_none data) then assign "method" (VStr "POST") else ret tt);;
  let headers :=
    if negb (is_none data)
    then <["Content-type" := VStr "application/x-www-form-urlencoded"]> headers
    else headers in
  http_proxy <- attr "http_proxy";;
  let proxies :=
    if negb (is_none http_proxy) then <["http" := http_proxy]> proxies
    else proxies in
  https_proxy <- attr "https_proxy";;
  let proxies :=
    if negb (is_none https_proxy) then <["https" := https_proxy]> proxies
    else proxies in
  url <- attr "url";;
  match url with
  | VStr u =>
      if String.prefix "file://" u then ret (ReadFile (str_drop 7 u))
      else
        custom <- attr "headers";;
        headers <- lift (custom_headers rt custom headers);;
        url <- attr "url";;
        data <- attr "data";;
        method <- attr "method";;
        ssl_no_verify <- attr "ssl_no_verify";;
        cookies <- attr "cookies";;
        ret (Send {| req_url := url; req_data := data; req_headers := headers;
                     req_method := method;
                     req_verify := negb (truthy ssl_no_verify);
                     req_cookies := cookies; req_proxies := proxies |})
  | _ => lift (Raise (AttributeError "startswith"))
  end.

(** [response.raise_for_status()]: [requests] raises [HTTPError] for the
    client and server error statuses, 400 to 599. *)
Definition raise_for_status (r : response) : result unit :=
  if (400 <=? status_code r) && (status_code r <? 600)
  then Raise (HTTPError (status_code r)) else Ok tt.

(** [response.headers.get(name)] as a value. *)
Definition header_value (o : option string) : value :=
  match o with Some s => VStr s | None => VNone end.

(** The nested [try] of lines 288-298, over the decoder [decode]. *)
Definition decode_body (decode : string → string → list byte → result string)
    (content : list byte) : result string :=
  try_except
    (try_except
       (try_except (decode "utf-8" "strict" content)
          is_UnicodeDecodeError
          (decode "latin1" "strict" content))
       is_UnicodeDecodeError
       (decode "utf-8" "ignore" content))
    is_LookupError
    (decode "ascii" "ignore" content).

(** [UrlJob.retrieve(self, job_state)]: the content or the exception, with
    [self] and [job_state] as the call leaves them. *)
Definition retrieve (rt : runtime) (self : job) (job_state : jobstate)
    : result string * job * jobstate :=
  match prepare rt job_state self with
  | (Raise e, self) => (Raise e, self, job_state)
  | (Ok (ReadFile path), self) => (open_read rt path, self, job_state)
  | (Ok (Send req), self) =>
      match request rt req with
      | Raise e => (Raise e, self, job_state)
      | Ok response =>
          match raise_for_status response with
          | Raise e => (Raise e, self, job_state)
          | Ok _ =>
              if status_code response =? 304
              then (Raise NotModifiedError, self, job_state)
              else
                let job_state :=
                  {| etag := header_value (headers_get response "ETag");
                     timestamp := timestamp job_state |} in
                let content_type :=
                  default "" (headers_get response "Content-type") in
                if negb (CHARSET_RE_match content_type)
                then (decode_body Codec.bytes_decode (content response),
                      self, job_state)
                else (Ok (text response), self, job_state)
          end
      end
  end.

End UrlJob.

Module BrowserJob.

Definition class : jobclass :=
  {| kind := "browser"; required := ["navigate"]; optional := Job_optional;
     is_async := true; location_attr := Some "navigate" |}.

(** [loop.run_until_complete(coro)]: a loop that is already running
    refuses. *)
Definition run_until_complete {A : Type} (w : world) (loop : value)
    (coro : result A) : result A :=
  r ← is_running w loop;
  if (r : bool) then Raise (RuntimeError "This event loop is already running")
  else coro.

Definition setup (rt : runtime) (w : world) (self : job) (loop : value)
    : result unit * job * world :=
  let self := AsyncJob.setup self loop in
  match browser w with
  | Some _ => (Ok tt, self, w)
  | None =>
      match run_until_complete w loop (launch rt) with
      | Ok b => (Ok tt, self, {| running := running w; browser := Some b |})
      | Raise e => (Raise e, self, w)
      end
  end.

Definition retrieve (rt : runtime) (w : world) (self : job) : result string :=
  _ ← AsyncJob.retrieve w self;
  navigate ← getattr self "navigate";
  render rt (browser w) navigate.

Definition cleanup (rt : runtime) (w : world) (self : job)
    : result unit * world :=
  match AsyncJob.cleanup w self with
  | Raise e => (Raise e, w)
  | Ok _ =>
      match browser w with
      | None => (Ok tt, w)
      | Some b =>
          match (loop ← getattr self "loop";
                 run_until_complete w loop (browser_close rt b)) with
          | Ok _ => (Ok tt, {| running := running w; browser := None |})
          | Raise e => (Raise e, w)
          end
      end
  end.

End BrowserJob.

(** The kinds declared in jobs.py, in the order of their declaration. *)
Definition jobs_registry : list jobclass :=
  [ShellJob.class; UrlJob.class; BrowserJob.class].

(** ** Vocabulary of the properties *)

(** The value of a populated field: an attribute that is set and is not
    [None]. *)
Definition populated (self : job) (k : string) : option value :=
  match attrs self !! k with
  | Some VNone => None
  | o => o
  end.

(** A valid job: every required field is populated and every optional field
    is set (possibly to [None]), as [__init__] leaves them when the required
    fields it is given are not [None]. *)
Definition job_valid (self : job) : Prop :=
  (∀ k, k ∈ required (cls self) → is_Some (populated self k)) ∧
  (∀ k, k ∈ optional (cls self) → is_Some (attrs self !! k)).

(** A class whose field names do not collide with the [kind] entry of a
    record, nor with the [loop] attribute of an [AsyncJob]. *)
Definition class_ok (c : jobclass) : Prop :=
  ("kind" ∉ fields c) ∧ (is_async c = true → "loop" ∉ fields c).

(** [c] is the class registered under its own kind. *)
Definition registered (registry : list jobclass) (c : jobclass) : Prop :=
  subclasses_getitem registry (VStr (kind c)) = Ok c.

(** The attribute dictionary [__init__] builds from [kwargs]. *)
Definition init_attrs (c : jobclass) (kwargs : pydict) : pydict :=
  let a := kwargs ∪ JobBase.set_optional (optional c) kwargs ∅ in
  if is_async c then <["loop" := VNone]> a else a.

(** The record's keys cover the required fields of [c] and stay within its
    declared fields. *)
Definition kind_matches (data : pydict) (c : jobclass) : Prop :=
  ((list_to_set (required c) : gset string) ⊆ dom data) ∧
  (dom data ⊆ (list_to_set (fields c) : gset string)).

(** The job [__init__] builds for class [c] from the field map [kwargs]. *)
Definition built (c : jobclass) (kwargs : pydict) : job :=
  {| cls := c; attrs := init_attrs c kwargs |}.

(** [self] after [retrieve] has settled the method, for the values [m] and
    [d] of [self.method] and [self.data]. *)
Definition negotiated (self : job) (m d : value) : job :=
  let self := if is_none m then setattr self "method" (VStr "GET") else self in
  if negb (is_none d) then setattr self "method" (VStr "POST") else self.

(** The headers before the custom headers are merged, for the values [ic]
    and [d] of [self.ignore_cached] and [self.data]. *)
Definition base_headers (rt : runtime) (job_state : jobstate) (ic d : value)
    : pydict :=
  let headers := UrlJob.cache_headers rt job_state ic in
  if negb (is_none d)
  then <["Content-type" := VStr "application/x-www-form-urlencoded"]> headers
  else headers.

(** ** A runtime for the examples *)

(** [str.lower] on ASCII letters. *)
Definition lower_char (c : ascii) : ascii :=
  let n := N_of_ascii c in
  if ((65 <=? n) && (n <=? 90))%N then ascii_of_N (n + 32) else c.

Fixpoint lower_ascii (s : string) : string :=
  match s with
  | EmptyString => EmptyString
  | String c s' => String (lower_char c) (lower_ascii s')
  end.

(** A runtime with no proxy in the environment and a server that answers
    every request with [resp]. *)
Definition example_runtime (resp : response) : runtime :=
  {| user_agent := "urlwatch";
     getenv := fun _ => VNone;
     formatdate := fun _ => "Thu, 01 Jan 1970 00:00:00 -0000";
     str_lower := lower_ascii;
     open_read := fun _ => Raise (ExternalError "FileNotFoundError");
     request := fun _ => Ok resp;
     launch := Ok 1%nat;
     browser_close := fun _ => Ok tt;
     render := fun _ _ => Ok "<html></html>" |}.

(** A response with the status [st], the ETag [tag] if any, no content type
    and the body [body]. *)
Definition example_response (st : Z) (tag : option string) (body : list byte)
    : response :=
  {| status_code := st;
     headers_get := fun name =>
       if String.eqb (lower_ascii name) "etag" then tag else None;
     content := body;
     text := "" |}.

(** A world where no loop runs and no browser is launched. *)
Definition idle_world : world :=
  {| running := fun _ => false; browser := None |}.

(** ** The range of SHA-1 digests *)




(** ** Further methods of jobs.py *)

(** [Job.pretty_name]: [self.name if self.name else self.get_location()]. *)
Definition Job_pretty_name (self : job) : result value :=
  name ← getattr self "name";
  if truthy name then Ok name else JobBase.get_location self.

(** What [ShellJob.retrieve] raises: [ShellError], defined in jobs.py with
    the exit status as [result], or another exception. *)
Inductive shell_exn : Type :=
  | ShellError (result : Z)
  | OtherError (e : exn).

Inductive shell_result : Type :=
  | ShellOk (stdout : string)
  | ShellRaise (e : shell_exn).

(** [ShellJob.retrieve].  [popen command] stands for the three calls on the
    subprocess: it runs [command] through the shell and gives its standard
    output and its exit status. *)
Definition ShellJob_retrieve (popen : value → result (list byte * Z))
    (self : job) : shell_result :=
  match getattr self "command" with
  | Raise e => ShellRaise (OtherError e)
  | Ok command =>
      match popen command with
      | Raise e => ShellRaise (OtherError e)
      | Ok (stdout_data, result) =>
          if negb (result =? 0) then ShellRaise (ShellError result)
          else match Codec.bytes_decode "utf-8" "strict" stdout_data with
               | Ok s => ShellOk s
               | Raise e => ShellRaise (OtherError e)
               end
      end
  end.

(** ** Vocabulary of the further properties *)

(** The method [retrieve] sends, for the values [m] and [d] of
    [self.method] and [self.data]. *)
Definition method_after (m d : value) : value :=
  if negb (is_none d) then VStr "POST"
  else if is_none m then VStr "GET" else m.

(** The proxies [retrieve] passes, for the values [hp] and [hsp] of
    [self.http_proxy] and [self.https_proxy]. *)
Definition proxies_of (rt : runtime) (hp hsp : value) : pydict :=
  {[ "http" := if is_none hp then getenv rt "HTTP_PROXY" else hp;
     "https" := if is_none hsp then getenv rt "HTTPS_PROXY" else hsp ]}.

(** [self'] is [self] up to its attribute [method]. *)
Definition same_but_method (self self' : job) : Prop :=
  cls self' = cls self ∧
  ∀ k, k ≠ "method" → attrs self' !! k = attrs self !! k.

(** Every byte is an ASCII character. *)
Definition is_ascii (bs : list byte) : bool :=
  forallb (fun b => byte_val b <? 0x80) bs.

(** * Properties *)

(** ** Dictionaries and tuples *)

Lemma contains_true (d : pydict) k : contains d k = true ↔ is_Some (d !! k).
Proof.
  unfold contains. by destruct (d !! k) as [v|].
Qed.

Lemma contains_false (d : pydict) k : contains d k = false ↔ d !! k = None.
Proof. unfold contains. by destruct (d !! k). Qed.

Lemma in_tuple_true k t : in_tuple k t = true ↔ k ∈ t.
Proof.
  unfold in_tuple. rewrite existsb_exists. split.
  - intros (x & Hx & Heq). apply String.eqb_eq in Heq. subst.
    by apply list_elem_of_In.
  - intros Hk. exists k. split; [by apply list_elem_of_In | apply String.eqb_refl].
Qed.

Lemma in_tuple_false k t : in_tuple k t = false ↔ k ∉ t.
Proof.
  rewrite <- in_tuple_true. by destruct (in_tuple k t).
Qed.

Lemma declared_true k c :
  in_tuple k (required c) || in_tuple k (optional c) = true ↔ k ∈ fields c.
Proof.
  unfold fields. rewrite orb_true_iff, !in_tuple_true, elem_of_app. done.
Qed.

Lemma keys_elem_of (d : pydict) k : k ∈ keys d ↔ is_Some (d !! k).
Proof.
  unfold keys. rewrite list_elem_of_fmap. split.
  - intros ([k' v] & -> & Hin). apply elem_of_map_to_list in Hin. by eexists.
  - intros [v Hv]. exists (k, v). split; [done|]. by apply elem_of_map_to_list.
Qed.

(** ** Construction *)

Lemma set_optional_lookup opt (kwargs a : pydict) k :
  JobBase.set_optional opt kwargs a !! k =
    if decide (k ∈ opt ∧ kwargs !! k = None) then Some VNone else a !! k.
Proof.
  unfold JobBase.set_optional. revert a.
  induction opt as [|o opt IH]; intros a; cbn [foldl].
  - rewrite decide_False; [done|]. intros [H _]. by apply elem_of_nil in H.
  - rewrite IH.
    destruct (decide (k ∈ opt ∧ kwargs !! k = None)) as [[H1 H2]|Hn].
    { rewrite decide_True; [done|]. split; [by right|done]. }
    destruct (decide (k = o)) as [->|Hne].
    + destruct (contains kwargs o) eqn:Ho.
      * apply contains_true in Ho as [v Hv].
        rewrite decide_False; [done|]. intros [_ ?]; congruence.
      * apply contains_false in Ho.
        rewrite decide_True; [by rewrite lookup_insert_eq|]. split; [by left|done].
    + rewrite decide_False.
      2:{ intros [[?|?]%elem_of_cons ?]; [done|]. by apply Hn. }
      destruct (contains kwargs o); [done|by rewrite lookup_insert_ne].
Qed.

Lemma check_required_ok req (kwargs : pydict) :
  (∀ k, k ∈ req → is_Some (kwargs !! k)) →
  JobBase.check_required req kwargs = Ok tt.
Proof.
  induction req as [|r req IH]; intros Hall; simpl; [done|].
  assert (contains kwargs r = true) as ->.
  { apply contains_true, Hall. by left. }
  apply IH. intros k Hk. apply Hall. by right.
Qed.


Lemma check_required_inv req (kwargs : pydict) :
  JobBase.check_required req kwargs = Ok tt →
  ∀ k, k ∈ req → is_Some (kwargs !! k).
Proof.
  induction req as [|r req IH]; simpl; intros Hok k Hk.
  - by apply elem_of_nil in Hk.
  - destruct (contains kwargs r) eqn:Hr; [|done].
    apply elem_of_cons in Hk as [->|Hk]; [by apply contains_true|by apply IH].
Qed.

Lemma base_init_ok c (kwargs : pydict) :
  (∀ k, k ∈ required c → is_Some (kwargs !! k)) →
  JobBase.init c kwargs =
    Ok {| cls := c; attrs := kwargs ∪ JobBase.set_optional (optional c) kwargs ∅ |}.
Proof.
  intros Hall. unfold JobBase.init. by rewrite check_required_ok.
Qed.

Lemma base_init_inv c (kwargs : pydict) j :
  JobBase.init c kwargs = Ok j →
  (∀ k, k ∈ required c → is_Some (kwargs !! k)) ∧
  j = {| cls := c; attrs := kwargs ∪ JobBase.set_optional (optional c) kwargs ∅ |}.
Proof.
  unfold JobBase.init. intros H.
  destruct (JobBase.check_required (required c) kwargs) as [[]|e] eqn:Hc;
    simpl in H; [|done].
  split; [by apply check_required_inv|congruence].
Qed.

Lemma construct_ok c (kwargs : pydict) :
  (∀ k, k ∈ required c → is_Some (kwargs !! k)) →
  construct c kwargs = Ok {| cls := c; attrs := init_attrs c kwargs |}.
Proof.
  intros Hall. unfold construct, AsyncJob.init, init_attrs.
  rewrite base_init_ok by done. by destruct (is_async c).
Qed.

Lemma construct_inv c (kwargs : pydict) j :
  construct c kwargs = Ok j →
  (∀ k, k ∈ required c → is_Some (kwargs !! k)) ∧
  j = {| cls := c; attrs := init_attrs c kwargs |}.
Proof.
  unfold construct, AsyncJob.init, init_attrs. intros H.
  destruct (JobBase.init c kwargs) as [j0|e] eqn:Hb.
  - apply base_init_inv in Hb as [Hall ->]. split; [done|].
    destruct (is_async c); simpl in H; by injection H as <-.
  - destruct (is_async c); simpl in H; done.
Qed.


Lemma init_attrs_lookup c (kwargs : pydict) k :
  init_attrs c kwargs !! k =
    if decide (is_async c = true ∧ k = "loop") then Some VNone
    else match kwargs !! k with
         | Some v => Some v
         | None => if decide (k ∈ optional c) then Some VNone else None
         end.
Proof.
  unfold init_attrs.
  assert ((kwargs ∪ JobBase.set_optional (optional c) kwargs ∅) !! k =
          match kwargs !! k with
          | Some v => Some v
          | None => if decide (k ∈ optional c) then Some VNone else None
          end) as Hbase.
  { rewrite lookup_union, set_optional_lookup.
    destruct (kwargs !! k) as [v|] eqn:Hk.
    { rewrite decide_False; [by rewrite lookup_empty|]. by intros [_ ?]. }
    destruct (decide (k ∈ optional c)) as [Hin|Hnin].
    - by rewrite decide_True.
    - rewrite decide_False; [by rewrite lookup_empty|]. by intros [? _]. }
  destruct (is_async c) eqn:Ha.
  - destruct (decide (k = "loop")) as [->|Hne].
    + rewrite decide_True by done. by rewrite lookup_insert_eq.
    + rewrite decide_False by (by intros [_ ?]).
      by rewrite lookup_insert_ne.
  - by rewrite decide_False by (by intros [? _]).
Qed.

(** ** [to_dict] and [serialize] *)

Lemma populated_Some self k v :
  populated self k = Some v ↔ attrs self !! k = Some v ∧ v ≠ VNone.
Proof.
  unfold populated.
  destruct (attrs self !! k) as [[]|]; (split; [intros [= <-]|intros [[=] ?]]);
    try done; by subst.
Qed.

Lemma populated_None self k :
  populated self k = None ↔ attrs self !! k = None ∨ attrs self !! k = Some VNone.
Proof.
  unfold populated.
  destruct (attrs self !! k) as [[]|]; (split; [intros [=]|intros [[=]|[=]]]);
    auto.
Qed.

Lemma to_dict_keys_lookup self ks acc m :
  JobBase.to_dict_keys self ks acc = Ok m →
  ∀ k, m !! k =
    match (if decide (k ∈ ks) then populated self k else None) with
    | Some v => Some v
    | None => acc !! k
    end.
Proof.
  revert acc. induction ks as [|k0 ks IH]; intros acc H k.
  - simpl in H. injection H as <-. by rewrite decide_False by apply not_elem_of_nil.
  - cbn [JobBase.to_dict_keys] in H. unfold getattr in H.
    destruct (attrs self !! k0) as [v0|] eqn:H0; [|done].
    cbn in H.
    destruct (decide (k = k0)) as [->|Hne].
    + rewrite decide_True by (by left).
      destruct (is_none v0) eqn:Hn.
      * destruct v0; try done. rewrite (IH _ H).
        assert (populated self k0 = None) as Hp by (apply populated_None; by right).
        rewrite Hp. by destruct (decide _).
      * assert (populated self k0 = Some v0) as Hp.
        { apply populated_Some. split; [done|]. by intros ->. }
        rewrite (IH _ H), Hp. destruct (decide _); [done|].
        by rewrite lookup_insert_eq.
    + assert ((if decide (k ∈ k0 :: ks) then populated self k else None) =
              (if decide (k ∈ ks) then populated self k else None)) as ->.
      { destruct (decide (k ∈ ks)) as [Hin|Hnin].
        - by rewrite decide_True by (by right).
        - rewrite decide_False; [done|]. by intros [?|?]%elem_of_cons. }
      destruct (is_none v0); rewrite (IH _ H); [done|].
      by rewrite lookup_insert_ne.
Qed.

Lemma to_dict_keys_total self ks acc :
  (∀ k, k ∈ ks → is_Some (attrs self !! k)) →
  ∃ m, JobBase.to_dict_keys self ks acc = Ok m.
Proof.
  revert acc. induction ks as [|k0 ks IH]; intros acc Hall; simpl.
  - by eexists.
  - destruct (Hall k0) as [v0 H0]; [by left|].
    unfold getattr. rewrite H0. cbn.
    destruct (is_none v0); apply IH; intros k Hk; apply Hall; by right.
Qed.

Lemma to_dict_lookup self td k :
  JobBase.to_dict self = Ok td →
  td !! k = if decide (k ∈ fields (cls self)) then populated self k else None.
Proof.
  intros H. unfold JobBase.to_dict in H.
  rewrite (to_dict_keys_lookup _ _ _ _ H). unfold fields.
  destruct (decide _); [|done]. by destruct (populated self k).
Qed.

Lemma to_dict_total self :
  (∀ k, k ∈ fields (cls self) → is_Some (attrs self !! k)) →
  ∃ td, JobBase.to_dict self = Ok td.
Proof. intros H. by apply to_dict_keys_total. Qed.

Lemma job_valid_attrs self k :
  job_valid self → k ∈ fields (cls self) → is_Some (attrs self !! k).
Proof.
  intros [Hreq Hopt] [Hk|Hk]%elem_of_app; [|by apply Hopt].
  destruct (Hreq k Hk) as [v Hv]. apply populated_Some in Hv as [Hv _]. by eexists.
Qed.

Lemma serialize_lookup self d k :
  JobBase.serialize self = Ok d →
  d !! k = match (if decide (k ∈ fields (cls self)) then populated self k else None) with
           | Some v => Some v
           | None => if decide (k = "kind") then Some (VStr (kind (cls self))) else None
           end.
Proof.
  unfold JobBase.serialize. intros H.
  destruct (JobBase.to_dict self) as [td|e] eqn:Htd; [|done].
  cbn in H. injection H as <-.
  rewrite lookup_union, (to_dict_lookup _ _ k Htd).
  destruct (if decide (k ∈ fields (cls self)) then populated self k else None) as [v|].
  - by destruct (_ !! k).
  - destruct (decide (k = "kind")) as [->|Hne].
    + by rewrite lookup_singleton_eq.
    + by rewrite lookup_singleton_ne.
Qed.

(** ** Resolution *)

Lemma filter_declared_lookup c (data : pydict) k :
  filter (fun kv : string * value =>
            in_tuple kv.1 (required c) || in_tuple kv.1 (optional c)) data !! k
  = if decide (k ∈ fields c) then data !! k else None.
Proof.
  rewrite map_lookup_filter. destruct (data !! k) as [v|] eqn:Hk; cbn.
  - destruct (decide (k ∈ fields c)) as [Hin|Hnin].
    + apply declared_true in Hin. rewrite option_guard_True; [done|].
      cbn. by rewrite Hin.
    + rewrite option_guard_False; [done|]. cbn. intros H. apply Hnin.
      apply declared_true. by apply Is_true_true.
  - by destruct (decide _).
Qed.

Lemma matches_spec (data : pydict) c :
  matches data c = true ↔
  (∀ r, r ∈ required c → is_Some (data !! r)) ∧
  (∀ k, is_Some (data !! k) → k ∈ fields c).
Proof.
  unfold matches. rewrite andb_true_iff, negb_true_iff, forallb_forall.
  rewrite <- not_true_iff_false, existsb_exists. split.
  - intros [Hreq Hno]. split.
    + intros r Hr. apply contains_true, Hreq. by apply list_elem_of_In.
    + intros k Hk. apply declared_true.
      destruct (in_tuple k (required c) || in_tuple k (optional c)) eqn:Hd; [done|].
      exfalso. apply Hno. exists k. split.
      * apply list_elem_of_In. by apply keys_elem_of.
      * apply orb_false_iff in Hd as [-> ->]. done.
  - intros [Hreq Hdecl]. split.
    + intros r Hr. apply contains_true, Hreq. by apply list_elem_of_In.
    + intros (k & Hk & Hundecl).
      apply list_elem_of_In, keys_elem_of, Hdecl, declared_true in Hk.
      apply andb_true_iff in Hundecl as [H1 H2].
      apply negb_true_iff in H1, H2. rewrite H1, H2 in Hk. done.
Qed.

Lemma matches_kind_matches (data : pydict) c :
  matches data c = true ↔ kind_matches data c.
Proof.
  rewrite matches_spec. unfold kind_matches. split.
  - intros [Hreq Hdecl]. split.
    + intros r Hr. apply elem_of_list_to_set in Hr. by apply elem_of_dom, Hreq.
    + intros k Hk. apply elem_of_list_to_set. by apply Hdecl, elem_of_dom.
  - intros [Hreq Hdecl]. split.
    + intros r Hr. apply elem_of_dom, Hreq. by apply elem_of_list_to_set.
    + intros k Hk. apply elem_of_dom, Hdecl in Hk. by apply elem_of_list_to_set in Hk.
Qed.

Lemma autodetect_elem_of registry (data : pydict) k :
  k ∈ autodetect registry data ↔
  ∃ c, c ∈ registry ∧ kind c = k ∧ matches data c = true.
Proof.
  unfold autodetect. rewrite list_elem_of_fmap. split.
  - intros (c & -> & Hc). apply list_elem_of_In, filter_In in Hc as [Hc Hm].
    exists c. split; [by apply list_elem_of_In|done].
  - intros (c & Hc & <- & Hm). exists c. split; [done|].
    apply list_elem_of_In, filter_In. split; [by apply list_elem_of_In|done].
Qed.

Lemma autodetect_NoDup registry (data : pydict) :
  registry_ok registry → NoDup (autodetect registry data).
Proof.
  unfold registry_ok, autodetect. induction registry as [|c registry IH]; simpl.
  - intros _. constructor.
  - intros [Hc Hnd]%NoDup_cons. destruct (matches data c); [|by apply IH].
    cbn. apply NoDup_cons. split; [|by apply IH].
    intros Hin. apply Hc. apply list_elem_of_fmap in Hin as (c' & -> & Hc').
    apply list_elem_of_fmap. exists c'. split; [done|].
    apply list_elem_of_In, filter_In in Hc' as [Hc' _]. by apply list_elem_of_In.
Qed.

Lemma getitem_registered registry c :
  registry_ok registry → c ∈ registry → registered registry c.
Proof.
  unfold registry_ok, registered, subclasses_getitem.
  induction registry as [|c0 registry IH]; intros Hnd Hc.
  - by apply elem_of_nil in Hc.
  - cbn in Hnd. apply NoDup_cons in Hnd as [Hc0 Hnd]. simpl.
    apply elem_of_cons in Hc as [->|Hc].
    + by rewrite String.eqb_refl.
    + destruct (String.eqb (kind c0) (kind c)) eqn:Heq.
      * apply String.eqb_eq in Heq. destruct Hc0. rewrite Heq.
        apply list_elem_of_fmap. by exists c.
      * by apply IH.
Qed.


Lemma getitem_inv registry v c :
  subclasses_getitem registry v = Ok c →
  c ∈ registry ∧ v = VStr (kind c).
Proof.
  unfold subclasses_getitem. destruct v; try done.
  destruct (List.find _ registry) as [c'|] eqn:Hf; [|done].
  intros [= ->]. apply find_some in Hf as [Hf Heq].
  apply String.eqb_eq in Heq. subst. split; [by apply list_elem_of_In|done].
Qed.

(** ** Claims on construction and serialisation *)




(** *** Round trip *)

Section round_trip.
Variable registry : list jobclass.
Variable j : job.
Variable td : pydict.
Hypothesis Hvalid : job_valid j.
Hypothesis Hclass : class_ok (cls j).
Hypothesis Htd : JobBase.to_dict j = Ok td.

Lemma td_lookup k :
  td !! k = if decide (k ∈ fields (cls j)) then populated j k else None.
Proof. by apply to_dict_lookup. Qed.

Lemma td_no_kind : td !! "kind" = None.
Proof. rewrite td_lookup, decide_False; [done|]. apply Hclass. Qed.

Lemma td_required k : k ∈ required (cls j) → is_Some (td !! k).
Proof.
  intros Hk. rewrite td_lookup, decide_True.
  - by apply Hvalid.
  - apply elem_of_app. by left.
Qed.


Lemma filter_serialized :
  filter (fun kv : string * value =>
            in_tuple kv.1 (required (cls j)) || in_tuple kv.1 (optional (cls j)))
         (td ∪ {[ "kind" := VStr (kind (cls j)) ]}) = td.
Proof.
  apply map_eq. intros k. rewrite filter_declared_lookup, lookup_union.
  destruct (decide (k ∈ fields (cls j))) as [Hin|Hnin].
  - rewrite lookup_singleton_ne.
    + by destruct (td !! k).
    + intros <-. by apply Hclass in Hin.
  - symmetry. rewrite td_lookup. by rewrite decide_False.
Qed.


Local Abbreviation j' := (built (cls j) td).

Lemma rebuilt_attrs k :
  k ∈ fields (cls j) → attrs j' !! k = attrs j !! k.
Proof.
  intros Hk. cbn [built attrs]. rewrite init_attrs_lookup.
  rewrite decide_False.
  2:{ intros [Ha ->]. by apply Hclass in Hk. }
  rewrite td_lookup, decide_True by done.
  destruct (populated j k) as [v|] eqn:Hp.
  - apply populated_Some in Hp as [Hp _]. done.
  - destruct (job_valid_attrs j k Hvalid Hk) as [v Hv].
    apply populated_None in Hp as [Hp|Hp]; [congruence|].
    rewrite Hp. rewrite decide_True; [done|].
    apply elem_of_app in Hk as [Hk|Hk]; [|done].
    destruct Hvalid as [Hreq _]. destruct (Hreq k Hk) as [w Hw].
    apply populated_Some in Hw as [Hw Hne]. congruence.
Qed.


Lemma from_dict_serialized :
  from_dict (cls j) (td ∪ {[ "kind" := VStr (kind (cls j)) ]}) = Ok j'.
Proof.
  unfold from_dict. rewrite filter_serialized.
  apply construct_ok, td_required.
Qed.



Hypothesis Hreg : registered registry (cls j).

Lemma unserialize_serialized :
  unserialize registry (td ∪ {[ "kind" := VStr (kind (cls j)) ]}) = Ok j'.
Proof.
  unfold unserialize, contains.
  rewrite lookup_union, td_no_kind, lookup_singleton_eq. cbn.
  rewrite Hreg. cbn. apply from_dict_serialized.
Qed.


End round_trip.


Lemma construct_valid c (kwargs : pydict) j :
  construct c kwargs = Ok j →
  (∀ k, k ∈ required c → kwargs !! k ≠ Some VNone) →
  (is_async c = true → "loop" ∉ required c) →
  job_valid j.
Proof.
  intros [Hall ->]%construct_inv Hnn Hloop. split; cbn [cls attrs].
  - intros k Hk. destruct (Hall k Hk) as [v Hv]. exists v.
    apply populated_Some. cbn [attrs]. rewrite init_attrs_lookup, Hv. split.
    + rewrite decide_False; [done|]. intros [Ha ->]. by apply Hloop.
    + intros ->. by apply (Hnn k).
  - intros k Hk. rewrite init_attrs_lookup. destruct (decide _); [by eexists|].
    destruct (kwargs !! k); [by eexists|]. rewrite decide_True by done. by eexists.
Qed.


(** A job constructed with a required field set to [None] is not valid in
    the sense of [job_valid], and it is not rebuilt: [serialize] leaves the
    field out and construction from the record raises. *)
Remark required_none_not_rebuilt :
  let j := built ShellJob.class {[ "command" := VNone ]} in
  construct ShellJob.class {[ "command" := VNone ]} = Ok j ∧
  JobBase.serialize j = Ok {[ "kind" := VStr "shell" ]} ∧
  unserialize jobs_registry {[ "kind" := VStr "shell" ]} =
    Raise (ValueError "Required field %s missing: %r"
             [ArgStr "command"; ArgDict ∅]).
Proof. repeat split; vm_compute; reflexivity. Qed.

(** *** Resolution of the kind *)

(** C2.  For a record without a [kind] entry, the kinds collected are exactly
    the registered kinds whose required fields are all keys of the record and
    whose declared fields include every key of the record, each listed once.
    A single kind is resolved and its class builds the job; no kind raises the
    no-match [ValueError]; two or more raise the [ValueError] that lists all
    of them. *)
Theorem unserialize_autodetect (registry : list jobclass) (data : pydict) :
  registry_ok registry →
  data !! "kind" = None →
  let kinds := autodetect registry data in
  (∀ k, k ∈ kinds ↔ ∃ c, c ∈ registry ∧ kind c = k ∧ kind_matches data c) ∧
  NoDup kinds ∧
  (∀ k, kinds = [k] →
     ∃ c, c ∈ registry ∧ kind c = k ∧ kind_matches data c ∧
          unserialize registry data = from_dict c data) ∧
  (kinds = [] →
     unserialize registry data =
       Raise (ValueError "Kind is not specified, and no job matches: %r"
                [ArgDict data])) ∧
  ((2 ≤ length kinds)%nat →
     unserialize registry data =
       Raise (ValueError "Multiple kinds of jobs match %r: %r"
                [ArgDict data; ArgList kinds])).
Proof.
  intros Hreg Hkind kinds.
  assert (∀ k, k ∈ kinds ↔ ∃ c, c ∈ registry ∧ kind c = k ∧ kind_matches data c)
    as Hmem.
  { intros k. unfold kinds. rewrite autodetect_elem_of.
    by setoid_rewrite matches_kind_matches. }
  assert (negb (contains data "kind") = true) as Hnk.
  { unfold contains. by rewrite Hkind. }
  repeat split.
  - by apply Hmem.
  - by apply Hmem.
  - by apply autodetect_NoDup.
  - intros k Hk.
    destruct (Hmem k) as [(c & Hc & <- & Hm) _].
    { rewrite Hk. by apply list_elem_of_singleton. }
    exists c. repeat split; try done; try apply Hm.
    unfold unserialize. rewrite Hnk. fold kinds. rewrite Hk. cbn.
    by rewrite (getitem_registered registry c Hreg Hc).
  - intros Hk. unfold unserialize. rewrite Hnk. fold kinds. by rewrite Hk.
  - intros Hlen. unfold unserialize. rewrite Hnk. fold kinds.
    destruct kinds as [|k1 [|k2 ks]]; cbn in Hlen; try lia. done.
Qed.

(** *** Fields outside the declared ones *)

Lemma unserialize_inv registry (data : pydict) j :
  unserialize registry data = Ok j →
  ∃ c, c ∈ registry ∧ from_dict c data = Ok j.
Proof.
  unfold unserialize. intros H.
  destruct (if negb (contains data "kind") then _ else _) as [v|e]; [|done].
  cbn in H.
  destruct (subclasses_getitem registry v) as [c|e] eqn:Hc; [|done].
  cbn in H. apply getitem_inv in Hc as [Hc _]. by exists c.
Qed.

(** C9.  The job [unserialize] builds holds no attribute for a name that its
    class does not declare, whatever the record held under that name (for an
    [AsyncJob] the attribute [loop] is the [None] its initialiser sets); the
    result only depends on the record's [kind] entry and declared fields; it
    serialises, and the serialised record has no entry for an undeclared name
    other than [kind].  Direct construction, in contrast, stores every field
    it is passed. *)
Theorem unserialize_drops_undeclared (registry : list jobclass) (data : pydict) (j : job) :
  unserialize registry data = Ok j →
  (∀ k, k ∉ fields (cls j) →
        attrs j !! k =
          if decide (is_async (cls j) = true ∧ k = "loop") then Some VNone else None) ∧
  (∀ data' : pydict,
        data' !! "kind" = data !! "kind" → is_Some (data !! "kind") →
        (∀ k, k ∈ fields (cls j) → data' !! k = data !! k) →
        unserialize registry data' = Ok j) ∧
  (∃ d, JobBase.serialize j = Ok d ∧
        ∀ k, k ∉ fields (cls j) → k ≠ "kind" → d !! k = None) ∧
  (∀ (kwargs : pydict) j0, construct (cls j) kwargs = Ok j0 →
        ∀ k v, kwargs !! k = Some v → ¬ (is_async (cls j) = true ∧ k = "loop") →
               attrs j0 !! k = Some v).
Proof.
  intros Hun.
  destruct (unserialize_inv _ _ _ Hun) as (c & Hc & Hfrom).
  unfold from_dict in Hfrom. apply construct_inv in Hfrom as [Hall Hj].
  assert (cls j = c) as Hcls by (by rewrite Hj).
  assert (∀ k, attrs j !! k =
    if decide (is_async c = true ∧ k = "loop") then Some VNone
    else if decide (k ∈ fields c)
         then match data !! k with
              | Some v => Some v
              | None => if decide (k ∈ optional c) then Some VNone else None
              end
         else None) as Hattr.
  { intros k. rewrite Hj. cbn [attrs].
    rewrite init_attrs_lookup, filter_declared_lookup.
    destruct (decide (is_async c = true ∧ k = "loop")); [done|].
    destruct (decide (k ∈ fields c)) as [|Hnin]; [done|].
    rewrite decide_False; [done|]. intros Ho. apply Hnin, elem_of_app. by right. }
  rewrite Hcls. repeat split.
  - intros k Hk. rewrite Hattr. destruct (decide _); [done|].
    by rewrite decide_False.
  - intros data' Hkind [kv Hkv] Hagree.
    assert (filter (fun kv : string * value =>
                      in_tuple kv.1 (required c) || in_tuple kv.1 (optional c)) data'
            = filter (fun kv : string * value =>
                      in_tuple kv.1 (required c) || in_tuple kv.1 (optional c)) data)
      as Hfilter.
    { apply map_eq. intros k. rewrite !filter_declared_lookup.
      destruct (decide _); [by apply Hagree|done]. }
    revert Hun. unfold unserialize, contains. rewrite Hkind, Hkv. cbn.
    destruct (subclasses_getitem registry kv) as [c'|] eqn:Hc'; [|done]. cbn.
    intros Hfrom. assert (c' = c) as ->.
    { unfold from_dict in Hfrom. apply construct_inv in Hfrom as [_ Hj'].
      rewrite Hj' in Hcls. done. }
    unfold from_dict in *. by rewrite Hfilter.
  - destruct (to_dict_total j) as [td Htd].
    { rewrite Hcls. intros k Hk. rewrite Hattr.
      destruct (decide _); [by eexists|]. rewrite decide_True by done.
      destruct (data !! k) as [v|] eqn:Hv; [by eexists|].
      apply elem_of_app in Hk as [Hk|Hk].
      - destruct (Hall k Hk) as [w Hw]. rewrite filter_declared_lookup in Hw.
        rewrite decide_True in Hw by (apply elem_of_app; by left). congruence.
      - rewrite decide_True by done. by eexists. }
    exists (td ∪ {[ "kind" := VStr (kind (cls j)) ]}). split.
    { unfold JobBase.serialize. by rewrite Htd. }
    intros k Hk Hne. rewrite lookup_union, (to_dict_lookup _ _ k Htd), Hcls.
    rewrite decide_False by done. by rewrite lookup_singleton_ne.
  - intros kwargs j0 [_ ->]%construct_inv k v Hk Hloop. cbn [attrs].
    rewrite init_attrs_lookup, Hk. by rewrite decide_False.
Qed.

Lemma jobs_registry_ok : registry_ok jobs_registry.
Proof.
  unfold registry_ok. cbn.
  repeat (apply NoDup_cons; split;
          [intros H; apply list_elem_of_In in H; cbn in H; decompose [or] H; done|]).
  apply NoDup_nil_2.
Qed.

Lemma unserialize_autodetect_witness :
  let data : pydict := {[ "command" := VStr "ls -l" ]} in
  autodetect jobs_registry data = ["shell"] ∧
  ∃ c, c ∈ jobs_registry ∧ kind c = "shell" ∧
       unserialize jobs_registry data = from_dict c data.
Proof.
  intros data.
  assert (data !! "kind" = None) as Hkind by (vm_compute; reflexivity).
  assert (autodetect jobs_registry data = ["shell"]) as Hauto
    by (vm_compute; reflexivity).
  destruct (unserialize_autodetect jobs_registry data jobs_registry_ok Hkind)
    as (_ & _ & Hone & _ & _).
  split; [exact Hauto|].
  destruct (Hone "shell" Hauto) as (c & Hc & Hk & _ & Hun).
  exists c. split; [exact Hc|]. split; [exact Hk|exact Hun].
Defined.

Lemma unserialize_drops_undeclared_witness :
  let data : pydict :=
    {[ "kind" := VStr "url"; "url" := VStr "http://example.org/";
       "colour" := VStr "red" ]} in
  let j := built UrlJob.class {[ "url" := VStr "http://example.org/" ]} in
  unserialize jobs_registry data = Ok j ∧
  attrs j !! "colour" = None ∧
  ∃ d, JobBase.serialize j = Ok d ∧ d !! "colour" = None.
Proof.
  intros data j.
  assert (unserialize jobs_registry data = Ok j) as Hj
    by (vm_compute; reflexivity).
  split; [exact Hj|].
  assert ("colour" ∉ fields (cls j)) as Hundecl.
  { cbn. intros H. apply list_elem_of_In in H. cbn in H.
    decompose [or] H; done. }
  destruct (unserialize_drops_undeclared jobs_registry data j Hj)
    as (Hattr & _ & (d & Hd & Hnone) & _).
  split.
  - rewrite (Hattr "colour" Hundecl).
    apply decide_False. by intros [_ [=]].
  - exists d. split; [exact Hd|]. by apply Hnone.
Defined.

(** ** HTTP retrieval *)

Lemma bind_attr {B : Type} k (f : value → UrlJob.M B) self :
  UrlJob.bind (UrlJob.attr k) f self =
    match attrs self !! k with
    | Some v => f v self
    | None => (Raise (AttributeError k), self)
    end.
Proof. unfold UrlJob.bind, UrlJob.attr, getattr. by destruct (attrs self !! k). Qed.

Lemma bind_assign_if {B : Type} (c : bool) k v (f : unit → UrlJob.M B) self :
  UrlJob.bind (if c then UrlJob.assign k v else UrlJob.ret tt) f self =
    f tt (if c then setattr self k v else self).
Proof. by destruct c. Qed.

Lemma bind_lift {A B : Type} (r : result A) (f : A → UrlJob.M B) self :
  UrlJob.bind (UrlJob.lift r) f self =
    match r with Ok a => f a self | Raise e => (Raise e, self) end.
Proof. unfold UrlJob.bind, UrlJob.lift. by destruct r. Qed.

Lemma negotiated_lookup self m d k :
  k ≠ "method" → attrs (negotiated self m d) !! k = attrs self !! k.
Proof.
  intros Hk. unfold negotiated.
  destruct (is_none m), (negb (is_none d)); cbn;
    rewrite ?lookup_insert_ne by done; done.
Qed.


(** *** Custom headers *)

Lemma foldl_delete_lookup (l : list string) (h : pydict) k :
  foldl (fun h header => delete header h) h l !! k =
    if decide (k ∈ l) then None else h !! k.
Proof.
  revert h. induction l as [|x l IH]; intros h; cbn [foldl].
  - by rewrite decide_False by apply not_elem_of_nil.
  - rewrite IH. destruct (decide (k ∈ l)) as [Hin|Hnin].
    + by rewrite decide_True by (by right).
    + destruct (decide (k = x)) as [->|Hne].
      * rewrite decide_True by (by left). by rewrite lookup_delete_eq.
      * rewrite decide_False by (by intros [?|?]%elem_of_cons).
        by rewrite lookup_delete_ne.
Qed.

Lemma add_custom_headers_lookup rt (custom headers : pydict) k :
  UrlJob.add_custom_headers rt custom headers !! k =
    match custom !! k with
    | Some v => Some v
    | None =>
        if decide (str_lower rt k ∈ str_lower rt <$> keys custom) then None
        else headers !! k
    end.
Proof.
  unfold UrlJob.add_custom_headers. rewrite lookup_union, foldl_delete_lookup.
  destruct (custom !! k) as [v|] eqn:Hc.
  { by destruct (decide _); [|destruct (headers !! k)]. }
  rewrite (left_id None _).
  destruct (decide (str_lower rt k ∈ str_lower rt <$> keys custom)) as [Hl|Hl].
  - destruct (decide _) as [|Hnin]; [done|].
    destruct (headers !! k) as [v|] eqn:Hh; [|done].
    destruct Hnin. apply list_elem_of_In, filter_In. split.
    + apply list_elem_of_In, keys_elem_of. by eexists.
    + by apply bool_decide_eq_true.
  - rewrite decide_False; [done|]. intros Hin.
    apply list_elem_of_In, filter_In in Hin as [_ Hin].
    by apply bool_decide_eq_true in Hin.
Qed.

Lemma lowered_elem_of rt (custom : pydict) k :
  str_lower rt k ∈ str_lower rt <$> keys custom ↔
  ∃ k', is_Some (custom !! k') ∧ str_lower rt k = str_lower rt k'.
Proof.
  rewrite list_elem_of_fmap. split.
  - intros (k' & Heq & Hk'). exists k'. split; [by apply keys_elem_of|done].
  - intros (k' & Hk' & Heq). exists k'. split; [done|by apply keys_elem_of].
Qed.

(** C6.  Merging the custom headers into the base headers gives the custom
    headers over the base headers whose lower-cased name is not the
    lower-cased name of a custom header: every custom header is in the result
    with its value; a base header whose name equals a custom name up to case
    is in the result only if that very name is a custom header, with the
    custom value; the other base headers are kept.  [retrieve] merges a
    non-empty dict of custom headers this way. *)
Theorem add_custom_headers_override (rt : runtime) (custom headers : pydict) :
  let final := UrlJob.add_custom_headers rt custom headers in
  final = custom ∪
          filter (fun kv : string * value =>
                    str_lower rt kv.1 ∉ str_lower rt <$> keys custom) headers ∧
  (∀ k v, custom !! k = Some v → final !! k = Some v) ∧
  (∀ k k', is_Some (custom !! k') → str_lower rt k = str_lower rt k' →
           final !! k = custom !! k) ∧
  (∀ k, (∀ k', is_Some (custom !! k') → str_lower rt k ≠ str_lower rt k') →
        final !! k = headers !! k) ∧
  (custom ≠ ∅ →
   UrlJob.custom_headers rt (VDict custom) headers = Ok final).
Proof.
  intros final. repeat split.
  - apply map_eq. intros k. unfold final.
    rewrite add_custom_headers_lookup, lookup_union, map_lookup_filter.
    destruct (custom !! k) as [v|].
    { by destruct (_ ≫= _). }
    rewrite (left_id None _). destruct (headers !! k) as [v|]; cbn.
    + destruct (decide _) as [Hin|Hnin].
      * by rewrite option_guard_False by (cbn; by intros ?).
      * by rewrite option_guard_True.
    + by destruct (decide _).
  - intros k v Hk. unfold final. by rewrite add_custom_headers_lookup, Hk.
  - intros k k' Hk' Heq. unfold final. rewrite add_custom_headers_lookup.
    destruct (custom !! k); [done|]. rewrite decide_True; [done|].
    apply lowered_elem_of. by exists k'.
  - intros k Hno. unfold final. rewrite add_custom_headers_lookup.
    destruct (custom !! k) as [v|] eqn:Hk.
    { exfalso. apply (Hno k); [by eexists|done]. }
    rewrite decide_False; [done|].
    intros (k' & Hk' & Heq)%lowered_elem_of. by apply (Hno k').
  - intros Hne. unfold UrlJob.custom_headers. cbn.
    destruct (map_to_list custom) as [|kv l] eqn:Hl; [|done].
    apply map_to_list_empty_iff in Hl. done.
Qed.

(** *** Conditional fetch *)


Lemma base_headers_ignore_cached rt js ic d :
  truthy ic = true →
  base_headers rt js ic d !! "If-None-Match" = Some VNone.
Proof.
  intros Hic. unfold base_headers, UrlJob.cache_headers. rewrite Hic.
  destruct (negb (is_none d)); rewrite ?lookup_insert_ne by done;
    by rewrite lookup_insert_eq.
Qed.


Lemma raise_for_status_ok resp :
  ¬ (400 ≤ status_code resp < 600) →
  UrlJob.raise_for_status resp = Ok tt.
Proof.
  intros H. unfold UrlJob.raise_for_status.
  destruct ((400 <=? status_code resp) && (status_code resp <? 600)) eqn:Hc; [|done].
  apply andb_true_iff in Hc as [H1%Z.leb_le H2%Z.ltb_lt]. lia.
Qed.

(** *** Decoding the body *)

Lemma utf8_decode_cases ignore bs :
  (∃ s, Codec.utf8_decode ignore bs = Ok s) ∨
  Codec.utf8_decode ignore bs = Raise UnicodeDecodeError.
Proof.
  assert (∀ n bs, (length bs ≤ n)%nat →
            (∃ s, Codec.utf8_decode ignore bs = Ok s) ∨
            Codec.utf8_decode ignore bs = Raise UnicodeDecodeError) as Hgen;
    [|by apply (Hgen (length bs))].
  clear bs. induction n as [|n IH]; intros bs Hlen.
  { destruct bs; [left; by eexists|cbn in Hlen; lia]. }
  assert (∀ r, (length r ≤ n)%nat →
            ∀ f : list byte → list byte,
            (∃ s, (Codec.utf8_decode ignore r ≫= fun s => Ok (f s)) = Ok s) ∨
            (Codec.utf8_decode ignore r ≫= fun s => Ok (f s)) = Raise UnicodeDecodeError) as Hbind.
  { intros r Hr f. destruct (IH r Hr) as [[s ->]| ->]; cbn; eauto. }
  assert (∀ r, (length r ≤ n)%nat →
            (∃ s, (if ignore then Codec.utf8_decode ignore r
                   else Raise UnicodeDecodeError) = Ok s) ∨
            (if ignore then Codec.utf8_decode ignore r
             else Raise UnicodeDecodeError) = Raise UnicodeDecodeError) as Hskip.
  { intros r Hr. destruct ignore; [by apply IH|by right]. }
  assert ((∃ s : list byte, (if ignore then Ok [] else Raise UnicodeDecodeError) = Ok s) ∨
          (if ignore then Ok [] else Raise UnicodeDecodeError)
            = @Raise (list byte) UnicodeDecodeError) as Hend.
  { destruct ignore; [left; by eexists|by right]. }
  destruct bs as [|b0 r0]; [left; by eexists|].
  cbn [Codec.utf8_decode]. cbn in Hlen.
  destruct (Codec.trail b0) as [[|n1]|].
  - apply Hbind. lia.
  - destruct r0 as [|b1 r1]; [done|]. cbn in Hlen.
    destruct (negb (Codec.second_ok b0 b1)); [apply Hskip; cbn; lia|].
    destruct n1 as [|n2]; [apply Hbind; lia|].
    destruct r1 as [|b2 r2]; [done|]. cbn in Hlen.
    destruct (negb (Codec.is_cont b2)); [apply Hskip; cbn; lia|].
    destruct n2 as [|n3]; [apply Hbind; lia|].
    destruct r2 as [|b3 r3]; [done|]. cbn in Hlen.
    destruct (negb (Codec.is_cont b3)); [apply Hskip; cbn; lia|].
    apply Hbind; lia.
  - apply Hskip. lia.
Qed.

Lemma bytes_decode_utf8_strict content :
  Codec.bytes_decode "utf-8" "strict" content =
    (bs ← Codec.utf8_decode false content; Ok (string_of_list_byte bs)).
Proof. reflexivity. Qed.

Lemma bytes_decode_latin1 content :
  Codec.bytes_decode "latin1" "strict" content =
    Ok (string_of_list_byte (Codec.latin1_decode content)).
Proof. reflexivity. Qed.

Lemma decode_body_codec content :
  UrlJob.decode_body Codec.bytes_decode content =
    match Codec.utf8_decode false content with
    | Ok bs => Ok (string_of_list_byte bs)
    | Raise _ => Ok (string_of_list_byte (Codec.latin1_decode content))
    end.
Proof.
  unfold UrlJob.decode_body.
  rewrite bytes_decode_utf8_strict, bytes_decode_latin1.
  by destruct (utf8_decode_cases false content) as [[s ->]| ->].
Qed.

Lemma decode_body_total content :
  ∃ s, UrlJob.decode_body Codec.bytes_decode content = Ok s.
Proof.
  rewrite decode_body_codec. destruct (Codec.utf8_decode false content); by eexists.
Qed.

Lemma retrieve_sent rt self js req self' resp :
  UrlJob.prepare rt js self = (Ok (UrlJob.Send req), self') →
  request rt req = Ok resp →
  UrlJob.retrieve rt self js =
    match UrlJob.raise_for_status resp with
    | Raise e => (Raise e, self', js)
    | Ok _ =>
        if status_code resp =? 304 then (Raise NotModifiedError, self', js)
        else
          let js' := {| etag := UrlJob.header_value (headers_get resp "ETag");
                        timestamp := timestamp js |} in
          if negb (UrlJob.CHARSET_RE_match (default "" (headers_get resp "Content-type")))
          then (UrlJob.decode_body Codec.bytes_decode (content resp), self', js')
          else (Ok (text resp), self', js')
    end.
Proof.
  intros Hp Hr. unfold UrlJob.retrieve. by rewrite Hp, Hr.
Qed.

Lemma retrieve_success rt self js req self' resp :
  UrlJob.prepare rt js self = (Ok (UrlJob.Send req), self') →
  request rt req = Ok resp →
  ¬ (400 ≤ status_code resp < 600) → status_code resp ≠ 304 →
  ∃ txt,
    UrlJob.retrieve rt self js =
      (Ok txt, self',
       {| etag := UrlJob.header_value (headers_get resp "ETag");
          timestamp := timestamp js |}) ∧
    (UrlJob.CHARSET_RE_match (default "" (headers_get resp "Content-type")) = false →
     Ok txt = UrlJob.decode_body Codec.bytes_decode (content resp)).
Proof.
  intros Hp Hr Hs H304. rewrite (retrieve_sent _ _ _ _ _ _ Hp Hr).
  rewrite raise_for_status_ok by done.
  assert ((status_code resp =? 304) = false) as -> by (by apply Z.eqb_neq).
  cbv zeta.
  destruct (UrlJob.CHARSET_RE_match _) eqn:Hm; cbn [negb].
  - eexists. split; [done|]. by intros ?.
  - destruct (decode_body_total (content resp)) as [s Hs']. rewrite Hs'.
    exists s. by split.
Qed.


(** C10.  A network retrieval answered with a 2xx status returns the content
    and leaves in [job_state.etag] the response's ETag header, whatever was
    stored before; when the response has no ETag header this is [None]. *)
Theorem url_retrieve_overwrites_etag
    (rt : runtime) (self : job) (js : jobstate) (req : http_request) (self' : job)
    (resp : response) :
  UrlJob.prepare rt js self = (Ok (UrlJob.Send req), self') →
  request rt req = Ok resp →
  200 ≤ status_code resp < 300 →
  ∃ txt js',
    UrlJob.retrieve rt self js = (Ok txt, self', js') ∧
    etag js' = UrlJob.header_value (headers_get resp "ETag") ∧
    timestamp js' = timestamp js ∧
    (∀ tag, headers_get resp "ETag" = Some tag → etag js' = VStr tag) ∧
    (headers_get resp "ETag" = None → etag js' = VNone).
Proof.
  intros Hp Hr Hs.
  destruct (retrieve_success _ _ js _ _ _ Hp Hr) as (c & Hc & _); [lia..|].
  eexists c, _. split; [exact Hc|]. cbn. repeat split.
  - by intros tag ->.
  - by intros ->.
Qed.


(** *** Examples of retrieval *)



Lemma url_retrieve_overwrites_etag_witness :
  let resp := example_response 200 None [] in
  let rt := example_runtime resp in
  let self := built UrlJob.class {[ "url" := VStr "http://example.org/" ]} in
  let js := {| etag := VStr "abc"; timestamp := VNone |} in
  ∃ txt self' js',
    UrlJob.retrieve rt self js = (Ok txt, self', js') ∧ etag js' = VNone.
Proof.
  intros resp rt self js.
  assert (∃ req self', UrlJob.prepare rt js self = (Ok (UrlJob.Send req), self'))
    as (req & self' & Hp).
  { set (res := UrlJob.prepare rt js self). vm_compute in res.
    eexists _, _. reflexivity. }
  destruct (url_retrieve_overwrites_etag rt self js req self' resp Hp eq_refl)
    as (txt & js' & Hr & _ & _ & _ & Hnone); [cbn; lia|].
  exists txt, self', js'. split; [exact Hr|]. by apply Hnone.
Defined.


Lemma add_custom_headers_override_witness :
  let rt := example_runtime (example_response 200 None []) in
  let headers : pydict :=
    {[ "Content-type" := VStr "application/x-www-form-urlencoded" ]} in
  let custom : pydict := {[ "content-type" := VStr "text/plain" ]} in
  UrlJob.custom_headers rt (VDict custom) headers
    = Ok (UrlJob.add_custom_headers rt custom headers) ∧
  UrlJob.add_custom_headers rt custom headers !! "content-type"
    = Some (VStr "text/plain") ∧
  UrlJob.add_custom_headers rt custom headers !! "Content-type" = None.
Proof.
  intros rt headers custom.
  destruct (add_custom_headers_override rt custom headers)
    as (_ & Hin & Hover & _ & Hret).
  split; [|split].
  - apply Hret. intros H. apply (f_equal (lookup "content-type")) in H.
    vm_compute in H. done.
  - apply Hin. reflexivity.
  - rewrite (Hover "Content-type" "content-type"); [reflexivity| |reflexivity].
    by eexists.
Defined.

(** ** Event loop checks *)

Lemma constructed_async_loop c (kwargs : pydict) j :
  is_async c = true → construct c kwargs = Ok j →
  attrs j !! "loop" = Some VNone.
Proof.
  intros Ha [_ ->]%construct_inv. cbn [attrs].
  by rewrite init_attrs_lookup, decide_True.
Qed.

(** C7 (as amended).  On a job of an [AsyncJob] class, before [setup]
    [retrieve] raises [RuntimeError('Event loop not set up')] and [cleanup]
    raises [RuntimeError('`setup` must be called before `cleanup`')].  After
    [setup] with a loop, [retrieve] raises [RuntimeError] with the text "The
    event loop must be running when `retrieve` is called on an AsyncJob" when
    the loop is not running and goes on to render the page when it is;
    [cleanup] raises [RuntimeError('The event loop should have stopped before
    `cleanup` is called')] when the loop is running and goes on to close the
    browser when it is not. *)
Theorem browser_lifecycle_checks
    (rt : runtime) (c : jobclass) (kwargs : pydict) (j : job) :
  is_async c = true →
  construct c kwargs = Ok j →
  (∀ w, BrowserJob.retrieve rt w j = Raise (RuntimeError "Event loop not set up")) ∧
  (∀ w, BrowserJob.cleanup rt w j =
          (Raise (RuntimeError "`setup` must be called before `cleanup`"), w)) ∧
  (∀ w0 l r j' w1,
     BrowserJob.setup rt w0 j (VLoop l) = (r, j', w1) →
     j' = AsyncJob.setup j (VLoop l) ∧
     ∀ w,
       (running w l = false →
        BrowserJob.retrieve rt w j' =
          Raise (RuntimeError
            "The event loop must be running when `retrieve` is called on an AsyncJob")) ∧
       (running w l = true →
        BrowserJob.retrieve rt w j' =
          (navigate ← getattr j' "navigate"; render rt (browser w) navigate)) ∧
       (running w l = true →
        BrowserJob.cleanup rt w j' =
          (Raise (RuntimeError
             "The event loop should have stopped before `cleanup` is called"), w)) ∧
       (running w l = false →
        BrowserJob.cleanup rt w j' =
          match browser w with
          | None => (Ok tt, w)
          | Some b =>
              match browser_close rt b with
              | Ok _ => (Ok tt, {| running := running w; browser := None |})
              | Raise e => (Raise e, w)
              end
          end)).
Proof.
  intros Ha Hc. pose proof (constructed_async_loop _ _ _ Ha Hc) as Hloop.
  split; [|split].
  - intros w. unfold BrowserJob.retrieve, AsyncJob.retrieve, getattr.
    by rewrite Hloop.
  - intros w. unfold BrowserJob.cleanup, AsyncJob.cleanup, getattr.
    by rewrite Hloop.
  - intros w0 l r j' w1 Hs.
    assert (j' = AsyncJob.setup j (VLoop l)) as ->.
    { unfold BrowserJob.setup in Hs.
      destruct (browser w0); [by injection Hs as _ <- _|].
      destruct (BrowserJob.run_until_complete _ _ _); by injection Hs as _ <- _. }
    split; [done|]. intros w.
    assert (attrs (AsyncJob.setup j (VLoop l)) !! "loop" = Some (VLoop l)) as Hl.
    { cbn. by rewrite lookup_insert_eq. }
    unfold BrowserJob.retrieve, BrowserJob.cleanup, AsyncJob.retrieve,
      AsyncJob.cleanup, BrowserJob.run_until_complete, getattr.
    rewrite Hl. cbn. repeat split; intros ->; cbn; done.
Qed.

Lemma browser_lifecycle_checks_witness :
  let rt := example_runtime (example_response 200 None []) in
  let j := built BrowserJob.class {[ "navigate" := VStr "http://example.org/" ]} in
  BrowserJob.retrieve rt idle_world j = Raise (RuntimeError "Event loop not set up") ∧
  BrowserJob.retrieve rt idle_world (AsyncJob.setup j (VLoop 0)) =
    Raise (RuntimeError
      "The event loop must be running when `retrieve` is called on an AsyncJob").
Proof.
  intros rt j.
  destruct (browser_lifecycle_checks rt BrowserJob.class
              {[ "navigate" := VStr "http://example.org/" ]} j eq_refl)
    as (Hr & _ & Hs).
  { reflexivity. }
  split; [apply Hr|].
  destruct (Hs idle_world 0%nat (Ok tt) (AsyncJob.setup j (VLoop 0))
              {| running := running idle_world; browser := Some 1%nat |})
    as [_ Hw].
  { reflexivity. }
  destruct (Hw idle_world) as (Hnr & _). by apply Hnr.
Defined.

(** C7, as stated, fails on the text of the error: before [setup],
    [retrieve] raises a [RuntimeError] that does not read "loop not
    running". *)
Lemma browser_retrieve_before_setup_message :
  BrowserJob.retrieve (example_runtime (example_response 200 None [])) idle_world
    (built BrowserJob.class {[ "navigate" := VStr "http://example.org/" ]})
    = Raise (RuntimeError "Event loop not set up") ∧
  RuntimeError "Event loop not set up" ≠ RuntimeError "loop not running".
Proof. split; [reflexivity|discriminate]. Qed.

(** ** Identity *)












Lemma built_location c (kwargs : pydict) a v :
  location_attr c = Some a → kwargs !! a = Some v →
  ¬ (is_async c = true ∧ a = "loop") →
  JobBase.get_location (built c kwargs) = Ok v.
Proof.
  intros Ha Hv Hl. unfold JobBase.get_location, getattr. cbn [built cls attrs].
  by rewrite Ha, init_attrs_lookup, decide_False, Hv.
Qed.




(** * Further properties *)

(** ** The request [UrlJob.retrieve] prepares *)

Lemma negotiated_method self m d :
  attrs self !! "method" = Some m →
  attrs (negotiated self m d) !! "method" = Some (method_after m d).
Proof.
  intros Hm. unfold negotiated, method_after.
  destruct (is_none m) eqn:Hn, (negb (is_none d)); cbn;
    rewrite ?lookup_insert_eq; done.
Qed.

Lemma negotiated_frame self m d : same_but_method self (negotiated self m d).
Proof.
  split.
  - unfold negotiated. by destruct (is_none m), (negb (is_none d)).
  - intros k Hk. by apply negotiated_lookup.
Qed.

Lemma proxies_of_eq rt hp hsp :
  (let proxies : pydict :=
     <["https" := getenv rt "HTTPS_PROXY"]> {[ "http" := getenv rt "HTTP_PROXY" ]} in
   let proxies :=
     if negb (is_none hp) then <["http" := hp]> proxies else proxies in
   if negb (is_none hsp) then <["https" := hsp]> proxies else proxies)
  = proxies_of rt hp hsp.
Proof.
  unfold proxies_of. cbv zeta. apply map_eq. intros k.
  destruct (decide (k = "http")) as [E1|H1], (decide (k = "https")) as [E2|H2];
    try (subst; discriminate); subst;
    destruct (is_none hp), (is_none hsp); cbn [negb];
    repeat (rewrite ?lookup_insert_eq, ?lookup_singleton_eq;
            rewrite ?lookup_insert_ne, ?lookup_singleton_ne by done); done.
Qed.

(** [prepare] on a job that has the attributes it reads first. *)
Lemma prepare_eq rt js self ic m d hp hsp url :
  attrs self !! "ignore_cached" = Some ic →
  attrs self !! "method" = Some m →
  attrs self !! "data" = Some d →
  attrs self !! "http_proxy" = Some hp →
  attrs self !! "https_proxy" = Some hsp →
  attrs self !! "url" = Some url →
  UrlJob.prepare rt js self =
    (match url with
     | VStr u =>
         if String.prefix "file://" u then Ok (UrlJob.ReadFile (str_drop 7 u))
         else
           custom ← getattr self "headers";
           headers ← UrlJob.custom_headers rt custom (base_headers rt js ic d);
           ssl_no_verify ← getattr self "ssl_no_verify";
           cookies ← getattr self "cookies";
           Ok (UrlJob.Send
                 {| req_url := url; req_data := d; req_headers := headers;
                    req_method := method_after m d;
                    req_verify := negb (truthy ssl_no_verify);
                    req_cookies := cookies;
                    req_proxies := proxies_of rt hp hsp |})
     | _ => Raise (AttributeError "startswith")
     end, negotiated self m d).
Proof.
  intros Hic Hm Hd Hhp Hhsp Hurl.
  unfold UrlJob.prepare. cbv zeta.
  rewrite bind_attr, Hic, bind_attr, Hm, bind_assign_if, bind_attr.
  assert (attrs (if is_none m then setattr self "method" (VStr "GET") else self)
            !! "data" = Some d) as ->.
  { destruct (is_none m); cbn; rewrite ?lookup_insert_ne by done; done. }
  rewrite bind_assign_if. fold (negotiated self m d).
  rewrite bind_attr, negotiated_lookup, Hhp by done.
  rewrite bind_attr, negotiated_lookup, Hhsp by done.
  rewrite bind_attr, negotiated_lookup, Hurl by done.
  pose proof (proxies_of_eq rt hp hsp) as Hpx. cbv zeta in Hpx. rewrite Hpx.
  destruct url as [| | |u| |]; try reflexivity.
  destruct (String.prefix "file://" u); [done|].
  rewrite bind_attr, negotiated_lookup by done. unfold getattr.
  destruct (attrs self !! "headers") as [custom|]; [|done].
  cbn [mbind result_bind].
  rewrite bind_lift. fold (base_headers rt js ic d).
  destruct (UrlJob.custom_headers rt custom (base_headers rt js ic d))
    as [hdrs|]; [|done].
  cbn [mbind result_bind].
  rewrite bind_attr, negotiated_lookup, Hurl by done.
  rewrite bind_attr, negotiated_lookup, Hd by done.
  rewrite bind_attr, (negotiated_method _ _ _ Hm).
  rewrite bind_attr, negotiated_lookup by done.
  destruct (attrs self !! "ssl_no_verify") as [snv|]; [|done].
  cbn [mbind result_bind].
  rewrite bind_attr, negotiated_lookup by done.
  by destruct (attrs self !! "cookies") as [ck|].
Qed.

Lemma same_but_method_refl self : same_but_method self self.
Proof. by split. Qed.

Lemma prepare_lookups rt js self r self' :
  UrlJob.prepare rt js self = (r, self') →
  (∃ ic m d hp hsp url,
     attrs self !! "ignore_cached" = Some ic ∧
     attrs self !! "method" = Some m ∧
     attrs self !! "data" = Some d ∧
     attrs self !! "http_proxy" = Some hp ∧
     attrs self !! "https_proxy" = Some hsp ∧
     attrs self !! "url" = Some url) ∨
  (∃ k, r = Raise (AttributeError k) ∧ attrs self !! k = None ∧
        same_but_method self self').
Proof.
  unfold UrlJob.prepare. cbv zeta. intros H.
  rewrite bind_attr in H.
  destruct (attrs self !! "ignore_cached") as [ic|] eqn:Hic.
  2:{ injection H as <- <-. right. eexists. eauto using same_but_method_refl. }
  rewrite bind_attr in H.
  destruct (attrs self !! "method") as [m|] eqn:Hm.
  2:{ injection H as <- <-. right. eexists. eauto using same_but_method_refl. }
  rewrite bind_assign_if, bind_attr in H.
  assert (attrs (if is_none m then setattr self "method" (VStr "GET") else self)
            !! "data" = attrs self !! "data") as Hd1.
  { destruct (is_none m); cbn; rewrite ?lookup_insert_ne by done; done. }
  rewrite Hd1 in H. clear Hd1.
  destruct (attrs self !! "data") as [d|] eqn:Hd.
  2:{ injection H as <- <-. right. eexists. split; [done|]. split; [done|].
      split; [by destruct (is_none m)|]. intros k Hk.
      destruct (is_none m); cbn; rewrite ?lookup_insert_ne by done; done. }
  rewrite bind_assign_if in H. fold (negotiated self m d) in H.
  rewrite bind_attr, negotiated_lookup in H by done.
  destruct (attrs self !! "http_proxy") as [hp|] eqn:Hhp.
  2:{ injection H as <- <-. right. eexists. eauto using negotiated_frame. }
  rewrite bind_attr, negotiated_lookup in H by done.
  destruct (attrs self !! "https_proxy") as [hsp|] eqn:Hhsp.
  2:{ injection H as <- <-. right. eexists. eauto using negotiated_frame. }
  rewrite bind_attr, negotiated_lookup in H by done.
  destruct (attrs self !! "url") as [url|] eqn:Hurl.
  2:{ injection H as <- <-. right. eexists. eauto using negotiated_frame. }
  left. by exists ic, m, d, hp, hsp, url.
Qed.

Lemma prepare_frame rt js self r self' :
  UrlJob.prepare rt js self = (r, self') → same_but_method self self'.
Proof.
  intros H. destruct (prepare_lookups _ _ _ _ _ H)
    as [(ic & m & d & hp & hsp & url & Hic & Hm & Hd & Hhp & Hhsp & Hurl)
       |(k & _ & _ & Hf)]; [|done].
  rewrite (prepare_eq _ _ _ _ _ _ _ _ _ Hic Hm Hd Hhp Hhsp Hurl) in H.
  injection H as _ <-. apply negotiated_frame.
Qed.

Lemma prepare_send rt js self req self' :
  UrlJob.prepare rt js self = (Ok (UrlJob.Send req), self') →
  ∃ ic m d hp hsp u custom snv ck,
    attrs self !! "ignore_cached" = Some ic ∧
    attrs self !! "method" = Some m ∧
    attrs self !! "data" = Some d ∧
    attrs self !! "http_proxy" = Some hp ∧
    attrs self !! "https_proxy" = Some hsp ∧
    attrs self !! "url" = Some (VStr u) ∧
    String.prefix "file://" u = false ∧
    attrs self !! "headers" = Some custom ∧
    attrs self !! "ssl_no_verify" = Some snv ∧
    attrs self !! "cookies" = Some ck ∧
    UrlJob.custom_headers rt custom (base_headers rt js ic d) = Ok (req_headers req) ∧
    req = {| req_url := VStr u; req_data := d; req_headers := req_headers req;
             req_method := method_after m d;
             req_verify := negb (truthy snv);
             req_cookies := ck;
             req_proxies := proxies_of rt hp hsp |} ∧
    self' = negotiated self m d.
Proof.
  intros H. destruct (prepare_lookups _ _ _ _ _ H)
    as [(ic & m & d & hp & hsp & url & Hic & Hm & Hd & Hhp & Hhsp & Hurl)
       |(k & [=] & _)].
  rewrite (prepare_eq _ _ _ _ _ _ _ _ _ Hic Hm Hd Hhp Hhsp Hurl) in H.
  destruct url as [| | |u| |]; try done.
  destruct (String.prefix "file://" u) eqn:Hfile; [done|].
  unfold getattr in H.
  destruct (attrs self !! "headers") as [custom|] eqn:Hc; [|done].
  cbn [mbind result_bind] in H.
  destruct (UrlJob.custom_headers rt custom (base_headers rt js ic d))
    as [hdrs|] eqn:Hh; [|done].
  cbn [mbind result_bind] in H.
  destruct (attrs self !! "ssl_no_verify") as [snv|] eqn:Hs; [|done].
  cbn [mbind result_bind] in H.
  destruct (attrs self !! "cookies") as [ck|] eqn:Hk; [|done].
  cbn [mbind result_bind] in H. injection H as <- <-.
  exists ic, m, d, hp, hsp, u, custom, snv, ck. by repeat split.
Qed.

(** X1.  Whatever [UrlJob.retrieve] returns or raises, it leaves the class
    and every attribute of the job but [method] as they were and never
    changes [job_state.timestamp]; when it raises, [job_state] is unchanged
    altogether, so an etag is only ever stored by a retrieval that returns
    content. *)
Theorem url_retrieve_frame
    (rt : runtime) (self : job) (js : jobstate)
    (r : result string) (self' : job) (js' : jobstate) :
  UrlJob.retrieve rt self js = (r, self', js') →
  same_but_method self self' ∧
  timestamp js' = timestamp js ∧
  (∀ e, r = Raise e → js' = js).
Proof.
  unfold UrlJob.retrieve. intros H.
  destruct (UrlJob.prepare rt js self) as [[[path|req]|e] s] eqn:Hp;
    pose proof (prepare_frame _ _ _ _ _ Hp) as Hf.
  - by injection H as <- <- <-.
  - destruct (request rt req) as [resp|e]; [|by injection H as <- <- <-].
    destruct (UrlJob.raise_for_status resp); [|by injection H as <- <- <-].
    destruct (status_code resp =? 304); [by injection H as <- <- <-|].
    cbv zeta in H.
    destruct (negb (UrlJob.CHARSET_RE_match _)).
    + destruct (decode_body_total (content resp)) as [s' Hs]. rewrite Hs in H.
      by injection H as <- <- <-.
    + by injection H as <- <- <-.
  - by injection H as <- <- <-.
Qed.

Lemma url_retrieve_frame_witness :
  let rt := example_runtime (example_response 404 (Some "new") []) in
  let self := built UrlJob.class {[ "url" := VStr "http://example.org/" ]} in
  let js := {| etag := VStr "abc"; timestamp := VInt 7 |} in
  ∃ self', UrlJob.retrieve rt self js = (Raise (HTTPError 404), self', js) ∧
           same_but_method self self'.
Proof.
  intros rt self js.
  assert (∃ self', UrlJob.retrieve rt self js = (Raise (HTTPError 404), self', js))
    as [self' Hr].
  { set (res := UrlJob.retrieve rt self js). vm_compute in res.
    eexists. reflexivity. }
  exists self'. split; [exact Hr|].
  by destruct (url_retrieve_frame rt self js _ _ _ Hr) as (Hf & _ & _).
Defined.

(** X2.  On the network path the request is sent with POST whenever
    [self.data] is not [None], whatever method the job names; without data it
    is sent with the job's method, or GET when that is [None].  The method
    sent is also stored in [self.method], and the data is passed on as it
    is. *)
Theorem url_request_method
    (rt : runtime) (js : jobstate) (self : job) (req : http_request) (self' : job) :
  UrlJob.prepare rt js self = (Ok (UrlJob.Send req), self') →
  ∃ m d,
    attrs self !! "method" = Some m ∧
    attrs self !! "data" = Some d ∧
    req_data req = d ∧
    attrs self' !! "method" = Some (req_method req) ∧
    (d ≠ VNone → req_method req = VStr "POST") ∧
    (d = VNone → m = VNone → req_method req = VStr "GET") ∧
    (d = VNone → m ≠ VNone → req_method req = m).
Proof.
  intros H. destruct (prepare_send _ _ _ _ _ H)
    as (ic & m & d & hp & hsp & u & custom & snv & ck &
        _ & Hm & Hd & _ & _ & _ & _ & _ & _ & _ & _ & -> & ->).
  exists m, d. cbn [req_data req_method]. repeat split; try done.
  - by apply negotiated_method.
  - intros Hne. unfold method_after. by destruct d.
  - by intros -> ->.
  - intros -> Hne. unfold method_after. by destruct m.
Qed.

Lemma url_request_method_witness :
  let rt := example_runtime (example_response 200 None []) in
  let self := built UrlJob.class
                {[ "url" := VStr "http://example.org/";
                   "method" := VStr "PUT"; "data" := VStr "a=1" ]} in
  let js := {| etag := VNone; timestamp := VNone |} in
  ∃ req self',
    UrlJob.prepare rt js self = (Ok (UrlJob.Send req), self') ∧
    req_method req = VStr "POST" ∧
    attrs self' !! "method" = Some (VStr "POST").
Proof.
  intros rt self js.
  assert (∃ req self', UrlJob.prepare rt js self = (Ok (UrlJob.Send req), self'))
    as (req & self' & Hp).
  { set (res := UrlJob.prepare rt js self). vm_compute in res.
    eexists _, _. reflexivity. }
  exists req, self'. split; [exact Hp|].
  destruct (url_request_method rt js self req self' Hp)
    as (m & d & Hm & Hd & _ & Hs & Hpost & _ & _).
  assert (d = VStr "a=1") as ->.
  { assert (attrs self !! "data" = Some (VStr "a=1")) as Hd'
      by (vm_compute; reflexivity).
    congruence. }
  assert (req_method req = VStr "POST") as Hpm by (by apply Hpost).
  split; [exact Hpm|]. by rewrite Hs, Hpm.
Defined.

(** X3.  The request's proxies are the job's [http_proxy] and [https_proxy]
    where they are not [None] and the values of the environment variables
    [HTTP_PROXY] and [HTTPS_PROXY] otherwise; its url and cookies are the
    job's, and certificates are verified unless [ssl_no_verify] is true. *)
Theorem url_request_proxies
    (rt : runtime) (js : jobstate) (self : job) (req : http_request) (self' : job) :
  UrlJob.prepare rt js self = (Ok (UrlJob.Send req), self') →
  ∃ hp hsp snv,
    attrs self !! "http_proxy" = Some hp ∧
    attrs self !! "https_proxy" = Some hsp ∧
    attrs self !! "ssl_no_verify" = Some snv ∧
    req_proxies req !! "http"
      = Some (if is_none hp then getenv rt "HTTP_PROXY" else hp) ∧
    req_proxies req !! "https"
      = Some (if is_none hsp then getenv rt "HTTPS_PROXY" else hsp) ∧
    (∀ k, k ≠ "http" → k ≠ "https" → req_proxies req !! k = None) ∧
    attrs self !! "url" = Some (req_url req) ∧
    attrs self !! "cookies" = Some (req_cookies req) ∧
    req_verify req = negb (truthy snv).
Proof.
  intros H. destruct (prepare_send _ _ _ _ _ H)
    as (ic & m & d & hp & hsp & u & custom & snv & ck &
        _ & _ & _ & Hhp & Hhsp & Hu & _ & _ & Hs & Hk & _ & -> & _).
  exists hp, hsp, snv. cbn [req_proxies req_url req_cookies req_verify].
  unfold proxies_of. do 3 (split; [done|]).
  split; [by rewrite lookup_insert_eq|].
  split; [by rewrite lookup_insert_ne, lookup_singleton_eq|].
  split; [|done].
  intros k H1 H2. by rewrite lookup_insert_ne, lookup_singleton_ne.
Qed.

Lemma url_request_proxies_witness :
  let rt := example_runtime (example_response 200 None []) in
  let self := built UrlJob.class
                {[ "url" := VStr "http://example.org/";
                   "http_proxy" := VStr "http://proxy:3128" ]} in
  let js := {| etag := VNone; timestamp := VNone |} in
  ∃ req self',
    UrlJob.prepare rt js self = (Ok (UrlJob.Send req), self') ∧
    req_proxies req !! "http" = Some (VStr "http://proxy:3128") ∧
    req_proxies req !! "https" = Some VNone.
Proof.
  intros rt self js.
  assert (∃ req self', UrlJob.prepare rt js self = (Ok (UrlJob.Send req), self'))
    as (req & self' & Hp).
  { set (res := UrlJob.prepare rt js self). vm_compute in res.
    eexists _, _. reflexivity. }
  exists req, self'. split; [exact Hp|].
  destruct (url_request_proxies rt js self req self' Hp)
    as (hp & hsp & snv & Hhp & Hhsp & _ & H1 & H2 & _).
  assert (hp = VStr "http://proxy:3128") as ->.
  { assert (attrs self !! "http_proxy" = Some (VStr "http://proxy:3128")) as Hd'
      by (vm_compute; reflexivity).
    congruence. }
  assert (hsp = VNone) as ->.
  { assert (attrs self !! "https_proxy" = Some VNone) as Hd'
      by (vm_compute; reflexivity).
    congruence. }
  by split.
Defined.

Lemma utf8_decode_strict_id bs s :
  Codec.utf8_decode false bs = Ok s → s = bs.
Proof.
  assert (∀ n bs s, (length bs ≤ n)%nat →
            Codec.utf8_decode false bs = Ok s → s = bs) as Hgen;
    [|by apply (Hgen (length bs))].
  clear bs s. induction n as [|n IH]; intros bs s Hlen H.
  { destruct bs; [by injection H as <-|cbn in Hlen; lia]. }
  assert (∀ r pre s, (length r ≤ n)%nat →
            (Codec.utf8_decode false r ≫= fun s => Ok (pre ++ s)) = Ok s →
            s = pre ++ r) as Hbind.
  { intros r pre s' Hr Hs.
    destruct (Codec.utf8_decode false r) as [t|] eqn:Ht; [|done].
    cbn in Hs. injection Hs as <-. by rewrite (IH r t Hr Ht). }
  destruct bs as [|b0 r0]; [by injection H as <-|].
  cbn [Codec.utf8_decode] in H. cbn in Hlen.
  destruct (Codec.trail b0) as [[|n1]|]; [|  |done].
  - apply (Hbind r0 [b0]); [lia|done].
  - destruct r0 as [|b1 r1]; [done|]. cbn in Hlen.
    destruct (negb (Codec.second_ok b0 b1)); [done|].
    destruct n1 as [|n2]; [apply (Hbind r1 [b0; b1]); [lia|done]|].
    destruct r1 as [|b2 r2]; [done|]. cbn in Hlen.
    destruct (negb (Codec.is_cont b2)); [done|].
    destruct n2 as [|n3]; [apply (Hbind r2 [b0; b1; b2]); [lia|done]|].
    destruct r2 as [|b3 r3]; [done|]. cbn in Hlen.
    destruct (negb (Codec.is_cont b3)); [done|].
    apply (Hbind r3 [b0; b1; b2; b3]); [lia|done].
Qed.

Lemma utf8_decode_ascii ignore bs :
  is_ascii bs = true → Codec.utf8_decode ignore bs = Ok bs.
Proof.
  unfold is_ascii. induction bs as [|b bs IH]; [done|].
  cbn [forallb]. intros [Hb Hbs]%andb_true_iff.
  cbn [Codec.utf8_decode]. unfold Codec.trail. rewrite Hb.
  by rewrite (IH Hbs).
Qed.

Lemma base_headers_lookup rt js ic d k :
  base_headers rt js ic d !! k =
    if decide (k = "Content-type") then
      if is_none d then None
      else Some (VStr "application/x-www-form-urlencoded")
    else if truthy ic then
      if decide (k = "Expires") then Some (VStr (formatdate rt VNone))
      else if decide (k = "Cache-Control") then Some (VStr "max-age=172800")
      else if decide (k = "If-Modified-Since")
           then Some (VStr (formatdate rt (VInt 0)))
      else if decide (k = "If-None-Match") then Some VNone
      else if decide (k = "User-agent") then Some (VStr (user_agent rt))
      else None
    else
      if decide (k = "If-Modified-Since") then
        if is_none (timestamp js) then None
        else Some (VStr (formatdate rt (timestamp js)))
      else if decide (k = "If-None-Match") then
        if is_none (etag js) then None else Some (etag js)
      else if decide (k = "User-agent") then Some (VStr (user_agent rt))
      else None.
Proof.
  unfold base_headers, UrlJob.cache_headers.
  destruct (is_none d), (truthy ic), (is_none (timestamp js)),
    (is_none (etag js)); cbn [negb];
    repeat (destruct (decide _) as [->|?]);
    repeat (rewrite ?lookup_insert_eq, ?lookup_singleton_eq;
            rewrite ?lookup_insert_ne, ?lookup_singleton_ne by done);
    done.
Qed.

(** X4.  When the job has no custom headers, the request headers are the
    user agent, the form content type exactly when there is data, and the
    cache headers: with [ignore_cached] set, [If-None-Match] is [None],
    [If-Modified-Since] is the epoch and [Cache-Control] and [Expires] are
    added; otherwise [If-None-Match] and [If-Modified-Since] carry the etag
    and the timestamp of [job_state] when these are not [None], and are
    absent when they are. *)
Theorem url_request_cache_headers
    (rt : runtime) (js : jobstate) (self : job) (req : http_request) (self' : job) :
  UrlJob.prepare rt js self = (Ok (UrlJob.Send req), self') →
  ∃ ic d custom,
    attrs self !! "ignore_cached" = Some ic ∧
    attrs self !! "data" = Some d ∧
    attrs self !! "headers" = Some custom ∧
    (truthy custom = false →
     req_headers req !! "User-agent" = Some (VStr (user_agent rt)) ∧
     req_headers req !! "Content-type" =
       (if is_none d then None
        else Some (VStr "application/x-www-form-urlencoded")) ∧
     (truthy ic = true →
      req_headers req !! "If-None-Match" = Some VNone ∧
      req_headers req !! "If-Modified-Since" = Some (VStr (formatdate rt (VInt 0))) ∧
      req_headers req !! "Cache-Control" = Some (VStr "max-age=172800") ∧
      req_headers req !! "Expires" = Some (VStr (formatdate rt VNone))) ∧
     (truthy ic = false →
      req_headers req !! "If-None-Match" =
        (if is_none (etag js) then None else Some (etag js)) ∧
      req_headers req !! "If-Modified-Since" =
        (if is_none (timestamp js) then None
         else Some (VStr (formatdate rt (timestamp js)))) ∧
      req_headers req !! "Cache-Control" = None ∧
      req_headers req !! "Expires" = None)).
Proof.
  intros H. destruct (prepare_send _ _ _ _ _ H)
    as (ic & m & d & hp & hsp & u & custom & snv & ck &
        Hic & _ & Hd & _ & _ & _ & _ & Hc & _ & _ & Hh & _ & _).
  exists ic, d, custom. do 3 (split; [done|]). intros Hf.
  unfold UrlJob.custom_headers in Hh. rewrite Hf in Hh. cbn in Hh.
  injection Hh as <-. rewrite !base_headers_lookup.
  split; [by destruct (truthy ic)|]. split; [done|].
  split; by intros ->.
Qed.

Lemma url_request_cache_headers_witness :
  let rt := example_runtime (example_response 200 None []) in
  let self := built UrlJob.class
                {[ "url" := VStr "http://example.org/";
                   "ignore_cached" := VBool true ]} in
  let js := {| etag := VStr "abc"; timestamp := VInt 7 |} in
  ∃ req self',
    UrlJob.prepare rt js self = (Ok (UrlJob.Send req), self') ∧
    req_headers req !! "If-None-Match" = Some VNone ∧
    req_headers req !! "Cache-Control" = Some (VStr "max-age=172800").
Proof.
  intros rt self js.
  assert (∃ req self', UrlJob.prepare rt js self = (Ok (UrlJob.Send req), self'))
    as (req & self' & Hp).
  { set (res := UrlJob.prepare rt js self). vm_compute in res.
    eexists _, _. reflexivity. }
  exists req, self'. split; [exact Hp|].
  destruct (url_request_cache_headers rt js self req self' Hp)
    as (ic & d & custom & Hic & _ & Hc & Hh).
  assert (ic = VBool true) as ->.
  { assert (attrs self !! "ignore_cached" = Some (VBool true)) as Hd'
      by (vm_compute; reflexivity).
    congruence. }
  assert (custom = VNone) as ->.
  { assert (attrs self !! "headers" = Some VNone) as Hd'
      by (vm_compute; reflexivity).
    congruence. }
  destruct (Hh eq_refl) as (_ & _ & Hon & _).
  destruct (Hon eq_refl) as (H1 & _ & H3 & _). by split.
Defined.

Lemma url_fields_lookups self :
  (∀ k, k ∈ fields UrlJob.class → is_Some (attrs self !! k)) →
  ∃ ic m d hp hsp url custom snv ck,
    attrs self !! "ignore_cached" = Some ic ∧
    attrs self !! "method" = Some m ∧
    attrs self !! "data" = Some d ∧
    attrs self !! "http_proxy" = Some hp ∧
    attrs self !! "https_proxy" = Some hsp ∧
    attrs self !! "url" = Some url ∧
    attrs self !! "headers" = Some custom ∧
    attrs self !! "ssl_no_verify" = Some snv ∧
    attrs self !! "cookies" = Some ck.
Proof.
  intros H.
  assert (∀ k, In k (fields UrlJob.class) → is_Some (attrs self !! k)) as H'.
  { intros k Hk. by apply H, list_elem_of_In. }
  destruct (H' "ignore_cached") as [ic Hic]; [cbn; tauto|].
  destruct (H' "method") as [m Hm]; [cbn; tauto|].
  destruct (H' "data") as [d Hd]; [cbn; tauto|].
  destruct (H' "http_proxy") as [hp Hhp]; [cbn; tauto|].
  destruct (H' "https_proxy") as [hsp Hhsp]; [cbn; tauto|].
  destruct (H' "url") as [url Hurl]; [cbn; tauto|].
  destruct (H' "headers") as [custom Hc]; [cbn; tauto|].
  destruct (H' "ssl_no_verify") as [snv Hs]; [cbn; tauto|].
  destruct (H' "cookies") as [ck Hk]; [cbn; tauto|].
  by exists ic, m, d, hp, hsp, url, custom, snv, ck.
Qed.

(** X5.  For a job that has the fields of [UrlJob] and whose url starts with
    [file://], [retrieve] returns or raises what reading the rest of the url
    as a path does, whatever the runtime answers to requests and whatever the
    custom headers are; [job_state] is unchanged and the method is settled as
    on the network path. *)
Theorem url_retrieve_file_scheme (self : job) (u : string) :
  (∀ k, k ∈ fields UrlJob.class → is_Some (attrs self !! k)) →
  attrs self !! "url" = Some (VStr u) →
  String.prefix "file://" u = true →
  ∃ m d,
    attrs self !! "method" = Some m ∧
    attrs self !! "data" = Some d ∧
    ∀ rt js,
      UrlJob.retrieve rt self js =
        (open_read rt (str_drop 7 u), negotiated self m d, js).
Proof.
  intros Hall Hurl Hfile.
  destruct (url_fields_lookups self Hall)
    as (ic & m & d & hp & hsp & url & custom & snv & ck &
        Hic & Hm & Hd & Hhp & Hhsp & Hurl' & _).
  assert (url = VStr u) as -> by congruence.
  exists m, d. do 2 (split; [done|]). intros rt js.
  unfold UrlJob.retrieve.
  rewrite (prepare_eq rt js _ _ _ _ _ _ _ Hic Hm Hd Hhp Hhsp Hurl').
  by rewrite Hfile.
Qed.

Lemma url_retrieve_file_scheme_witness :
  let self := built UrlJob.class
                {[ "url" := VStr "file:///etc/hosts"; "headers" := VStr "x" ]} in
  ∃ self', ∀ rt js, UrlJob.retrieve rt self js = (open_read rt "/etc/hosts", self', js).
Proof.
  intros self.
  destruct (url_retrieve_file_scheme self "file:///etc/hosts")
    as (m & d & _ & _ & Hr).
  - intros k Hk. apply list_elem_of_In in Hk. cbn in Hk.
    decompose [or] Hk; try done; subst k; vm_compute; eexists; reflexivity.
  - vm_compute. reflexivity.
  - vm_compute. reflexivity.
  - by exists (negotiated self m d).
Defined.

(** X6.  Preparing the request again on the job as a first preparation left
    it gives the same plan and leaves the job as it is: the method settled by
    one retrieval is the one a later retrieval settles. *)
Theorem url_prepare_idempotent
    (rt : runtime) (js : jobstate) (self : job) (p : UrlJob.plan) (self' : job) :
  UrlJob.prepare rt js self = (Ok p, self') →
  UrlJob.prepare rt js self' = (Ok p, self').
Proof.
  intros H. destruct (prepare_lookups _ _ _ _ _ H)
    as [(ic & m & d & hp & hsp & url & Hic & Hm & Hd & Hhp & Hhsp & Hurl)
       |(k & [=] & _)].
  rewrite (prepare_eq _ _ _ _ _ _ _ _ _ Hic Hm Hd Hhp Hhsp Hurl) in H.
  injection H as Hp <-.
  assert (method_after (method_after m d) d = method_after m d) as Hmm.
  { unfold method_after. destruct (is_none d); cbn [negb]; [|done].
    by destruct (is_none m) eqn:Hn; [|rewrite Hn]. }
  assert (negotiated (negotiated self m d) (method_after m d) d
          = negotiated self m d) as Hnn.
  { unfold negotiated, method_after, setattr.
    destruct (is_none m) eqn:Hn, (is_none d) eqn:Hdn; cbn [negb is_none cls attrs];
      rewrite ?Hn; cbn [cls attrs]; rewrite ?insert_insert_eq; done. }
  rewrite (prepare_eq rt js (negotiated self m d) ic (method_after m d) d hp hsp url);
    rewrite ?negotiated_lookup by done; try done; [|by apply negotiated_method].
  rewrite Hmm, Hnn. f_equal. rewrite <- Hp. unfold getattr.
  by rewrite !negotiated_lookup by done.
Qed.

Lemma url_prepare_idempotent_witness :
  let rt := example_runtime (example_response 200 None []) in
  let self := built UrlJob.class {[ "url" := VStr "http://example.org/" ]} in
  let js := {| etag := VNone; timestamp := VNone |} in
  ∃ req self',
    UrlJob.prepare rt js self = (Ok (UrlJob.Send req), self') ∧
    UrlJob.prepare rt js self' = (Ok (UrlJob.Send req), self').
Proof.
  intros rt self js.
  assert (∃ req self', UrlJob.prepare rt js self = (Ok (UrlJob.Send req), self'))
    as (req & self' & Hp).
  { set (res := UrlJob.prepare rt js self). vm_compute in res.
    eexists _, _. reflexivity. }
  exists req, self'. split; [exact Hp|].
  exact (url_prepare_idempotent rt js self _ self' Hp).
Defined.



Lemma prefix_append p s : String.prefix p (String.append p s) = true.
Proof.
  induction p as [|c p IH]; [by destruct s|].
  change (String.append (String c p) s) with (String c (String.append p s)).
  cbn [String.prefix]. destruct (ascii_dec c c); [exact IH|done].
Qed.

(** X8.  When the response's content type starts with [text/html; charset=]
    or [text/plain; charset=], a successful network retrieval returns
    [response.text] and stores the ETag header, whatever the bytes of the
    body are: the decoding fallback is not used. *)
Theorem url_retrieve_text_type
    (rt : runtime) (self : job) (js : jobstate) (req : http_request) (self' : job)
    (resp : response) (charset : string) :
  UrlJob.prepare rt js self = (Ok (UrlJob.Send req), self') →
  request rt req = Ok resp →
  ¬ (400 ≤ status_code resp < 600) →
  status_code resp ≠ 304 →
  headers_get resp "Content-type" = Some (String.append "text/html; charset=" charset) ∨
  headers_get resp "Content-type" = Some (String.append "text/plain; charset=" charset) →
  UrlJob.retrieve rt self js =
    (Ok (text resp), self',
     {| etag := UrlJob.header_value (headers_get resp "ETag");
        timestamp := timestamp js |}).
Proof.
  intros Hp Hr Hs H304 Hct. rewrite (retrieve_sent _ _ _ _ _ _ Hp Hr).
  rewrite raise_for_status_ok by done.
  assert ((status_code resp =? 304) = false) as -> by (by apply Z.eqb_neq).
  cbv zeta.
  assert (UrlJob.CHARSET_RE_match (default "" (headers_get resp "Content-type"))
          = true) as ->; [|done].
  unfold UrlJob.CHARSET_RE_match.
  destruct Hct as [-> | ->]; cbn [default]; apply orb_true_iff; [left|right];
    apply prefix_append.
Qed.

Lemma url_retrieve_text_type_witness :
  let resp := {| status_code := 200;
                 headers_get := fun name =>
                   if String.eqb name "Content-type"
                   then Some "text/html; charset=utf-8" else None;
                 content := Codec.byte_of <$> [0xE9];
                 text := "é" |} in
  let rt := example_runtime resp in
  let self := built UrlJob.class {[ "url" := VStr "http://example.org/" ]} in
  let js := {| etag := VStr "abc"; timestamp := VNone |} in
  ∃ self', UrlJob.retrieve rt self js =
             (Ok "é", self', {| etag := VNone; timestamp := VNone |}).
Proof.
  intros resp rt self js.
  assert (∃ req self', UrlJob.prepare rt js self = (Ok (UrlJob.Send req), self'))
    as (req & self' & Hp).
  { set (res := UrlJob.prepare rt js self). vm_compute in res.
    eexists _, _. reflexivity. }
  exists self'.
  apply (url_retrieve_text_type rt self js req self' resp "utf-8" Hp eq_refl).
  - cbn. lia.
  - done.
  - left. reflexivity.
Defined.

(** X9.  When the response's content type is not one of those and the body
    is well-formed UTF-8, as a body of ASCII bytes is, a successful network
    retrieval returns the body as it is. *)
Theorem url_retrieve_utf8_body
    (rt : runtime) (self : job) (js : jobstate) (req : http_request) (self' : job)
    (resp : response) :
  UrlJob.prepare rt js self = (Ok (UrlJob.Send req), self') →
  request rt req = Ok resp →
  ¬ (400 ≤ status_code resp < 600) →
  status_code resp ≠ 304 →
  UrlJob.CHARSET_RE_match (default "" (headers_get resp "Content-type")) = false →
  is_ascii (content resp) = true ∨
  (∃ bs, Codec.utf8_decode false (content resp) = Ok bs) →
  UrlJob.retrieve rt self js =
    (Ok (string_of_list_byte (content resp)), self',
     {| etag := UrlJob.header_value (headers_get resp "ETag");
        timestamp := timestamp js |}).
Proof.
  intros Hp Hr Hs H304 Hct Hbody. rewrite (retrieve_sent _ _ _ _ _ _ Hp Hr).
  rewrite raise_for_status_ok by done.
  assert ((status_code resp =? 304) = false) as -> by (by apply Z.eqb_neq).
  cbv zeta. rewrite Hct. cbn [negb]. rewrite decode_body_codec.
  destruct Hbody as [Ha|[bs Hbs]].
  - by rewrite (utf8_decode_ascii _ _ Ha).
  - pose proof (utf8_decode_strict_id _ _ Hbs) as ->. by rewrite Hbs.
Qed.

Lemma url_retrieve_utf8_body_witness :
  let resp := example_response 200 (Some "v1") (list_byte_of_string "hello") in
  let rt := example_runtime resp in
  let self := built UrlJob.class {[ "url" := VStr "http://example.org/" ]} in
  let js := {| etag := VNone; timestamp := VNone |} in
  ∃ self', UrlJob.retrieve rt self js =
             (Ok "hello", self', {| etag := VStr "v1"; timestamp := VNone |}).
Proof.
  intros resp rt self js.
  assert (∃ req self', UrlJob.prepare rt js self = (Ok (UrlJob.Send req), self'))
    as (req & self' & Hp).
  { set (res := UrlJob.prepare rt js self). vm_compute in res.
    eexists _, _. reflexivity. }
  exists self'.
  apply (url_retrieve_utf8_body rt self js req self' resp Hp eq_refl).
  - cbn. lia.
  - done.
  - reflexivity.
  - left. reflexivity.
Defined.

(** X19.  Merging custom headers is idempotent, and merging no custom
    header changes nothing. *)
Theorem add_custom_headers_idempotent (rt : runtime) (custom headers : pydict) :
  UrlJob.add_custom_headers rt custom
    (UrlJob.add_custom_headers rt custom headers)
  = UrlJob.add_custom_headers rt custom headers ∧
  UrlJob.add_custom_headers rt ∅ headers = headers.
Proof.
  split; apply map_eq; intros k; rewrite !add_custom_headers_lookup.
  - destruct (custom !! k) as [v|] eqn:Hk; [done|]. by destruct (decide _).
  - rewrite lookup_empty. rewrite decide_False; [done|].
    intros (k' & [v Hv] & _)%lowered_elem_of. by rewrite lookup_empty in Hv.
Qed.

(** ** [ShellJob.retrieve] *)

(** X10.  [ShellJob.retrieve] raises [ShellError] with the exit status
    whenever the status is not 0, whatever the command printed.  With status
    0 it returns the standard output unchanged when this is well-formed UTF-8
    and raises [UnicodeDecodeError] otherwise: there is no fallback
    decoding. *)
Theorem shell_retrieve_outcome
    (popen : value → result (list byte * Z)) (self : job)
    (command : value) (out : list byte) (status : Z) :
  attrs self !! "command" = Some command →
  popen command = Ok (out, status) →
  (status ≠ 0 → ShellJob_retrieve popen self = ShellRaise (ShellError status)) ∧
  (status = 0 →
   (Codec.utf8_decode false out = Ok out ∧
    ShellJob_retrieve popen self = ShellOk (string_of_list_byte out)) ∨
   (Codec.utf8_decode false out = Raise UnicodeDecodeError ∧
    ShellJob_retrieve popen self = ShellRaise (OtherError UnicodeDecodeError))).
Proof.
  intros Hc Hp. unfold ShellJob_retrieve, getattr. rewrite Hc, Hp. split.
  - intros Hs. by apply Z.eqb_neq in Hs as ->.
  - intros ->. cbn [Z.eqb negb]. rewrite bytes_decode_utf8_strict.
    destruct (utf8_decode_cases false out) as [[s Hs]|Hs].
    + left. pose proof (utf8_decode_strict_id _ _ Hs) as ->. by rewrite Hs.
    + right. by rewrite Hs.
Qed.

Lemma shell_retrieve_outcome_witness :
  let self := built ShellJob.class {[ "command" := VStr "false" ]} in
  let popen := fun _ : value => Ok (list_byte_of_string "some output", 1) in
  ShellJob_retrieve popen self = ShellRaise (ShellError 1).
Proof.
  intros self popen.
  destruct (shell_retrieve_outcome popen self (VStr "false")
              (list_byte_of_string "some output") 1) as [Hne _].
  - vm_compute. reflexivity.
  - reflexivity.
  - by apply Hne.
Defined.

(** ** More on [serialize] and construction *)

Lemma to_dict_keys_raise self ks acc e :
  JobBase.to_dict_keys self ks acc = Raise e →
  ∃ k, k ∈ ks ∧ attrs self !! k = None ∧ e = AttributeError k.
Proof.
  revert acc. induction ks as [|k0 ks IH]; intros acc H; [done|].
  cbn [JobBase.to_dict_keys] in H. unfold getattr in H.
  destruct (attrs self !! k0) as [v0|] eqn:H0.
  - cbn in H. destruct (is_none v0);
      destruct (IH _ H) as (k & Hk & Hn & He); exists k;
      (split; [by right|done]).
  - cbn in H. injection H as <-. exists k0. split; [by left|done].
Qed.

(** X11.  A record [serialize] returns has no [None] value and no key
    other than [kind] and the declared fields of the class; it holds every
    populated declared field, and under [kind] the tag of the class unless
    the class declares a field of that name.  [serialize] raises exactly
    when a declared field is not set on the job, with an [AttributeError]
    for such a field. *)
Theorem serialize_entries (self : job) :
  (∀ d, JobBase.serialize self = Ok d →
     (∀ k v, d !! k = Some v →
             v ≠ VNone ∧ (k = "kind" ∨ k ∈ fields (cls self))) ∧
     (∀ k, k ∈ fields (cls self) → k ≠ "kind" → d !! k = populated self k) ∧
     ("kind" ∉ fields (cls self) → d !! "kind" = Some (VStr (kind (cls self))))) ∧
  (∀ e, JobBase.serialize self = Raise e →
     ∃ k, k ∈ fields (cls self) ∧ attrs self !! k = None ∧ e = AttributeError k) ∧
  ((∀ k, k ∈ fields (cls self) → is_Some (attrs self !! k)) →
   ∃ d, JobBase.serialize self = Ok d).
Proof.
  split; [|split].
  - intros d Hd. split; [|split].
    + intros k v Hk. rewrite (serialize_lookup _ _ k Hd) in Hk.
      destruct (decide (k ∈ fields (cls self))) as [Hin|Hnin].
      * destruct (populated self k) as [w|] eqn:Hp.
        -- injection Hk as <-. apply populated_Some in Hp as [_ Hne].
           split; [done|by right].
        -- destruct (decide (k = "kind")); [|done]. injection Hk as <-.
           split; [done|by right].
      * destruct (decide (k = "kind")); [|done]. injection Hk as <-.
        split; [done|by left].
    + intros k Hin Hne. rewrite (serialize_lookup _ _ k Hd).
      rewrite decide_True by done. destruct (populated self k); [done|].
      by rewrite decide_False.
    + intros Hnin. rewrite (serialize_lookup _ _ "kind" Hd).
      by rewrite decide_False, decide_True.
  - intros e He. unfold JobBase.serialize, JobBase.to_dict in He.
    destruct (JobBase.to_dict_keys _ _ _) as [td|e'] eqn:Htd; [done|].
    cbn in He. injection He as <-.
    by apply to_dict_keys_raise in Htd.
  - intros Hall. destruct (to_dict_total self Hall) as [td Htd].
    eexists. unfold JobBase.serialize. by rewrite Htd.
Qed.

Lemma serialize_entries_witness :
  let j := built UrlJob.class
             {[ "url" := VStr "http://example.org/"; "method" := VNone ]} in
  ∃ d, JobBase.serialize j = Ok d ∧
       d !! "kind" = Some (VStr "url") ∧
       ∀ k v, d !! k = Some v → v ≠ VNone.
Proof.
  intros j. destruct (serialize_entries j) as (Hok & _ & Htotal).
  destruct Htotal as [d Hd].
  - intros k Hk. apply list_elem_of_In in Hk. cbn in Hk.
    decompose [or] Hk; try done; subst k; vm_compute; eexists; reflexivity.
  - destruct (Hok d Hd) as (Hentries & _ & Hkind).
    exists d. split; [exact Hd|]. split.
    + apply Hkind. intros H. apply list_elem_of_In in H. cbn in H.
      decompose [or] H; done.
    + intros k v Hk. by destruct (Hentries k v Hk).
Defined.

(** X12.  Serialising a job right after constructing it from a field map
    gives the tag of its class under [kind] and, for every declared field,
    the value the field map gave it unless that value is [None]; nothing
    else: fields the class does not declare and fields set to [None] are not
    serialised. *)
Theorem construct_serialize (c : jobclass) (kwargs : pydict) (j : job) :
  construct c kwargs = Ok j →
  class_ok c →
  ∃ d, JobBase.serialize j = Ok d ∧
       d !! "kind" = Some (VStr (kind c)) ∧
       (∀ k, k ∈ fields c →
             d !! k = match kwargs !! k with Some VNone => None | o => o end) ∧
       (∀ k, k ∉ fields c → k ≠ "kind" → d !! k = None).
Proof.
  intros [Hall ->]%construct_inv [Hkind Hloop].
  assert (∀ k, k ∈ fields c →
            attrs (built c kwargs) !! k =
              match kwargs !! k with Some v => Some v | None => Some VNone end)
    as Hattr.
  { intros k Hk. cbn [built attrs]. rewrite init_attrs_lookup.
    rewrite decide_False.
    2:{ intros [Ha ->]. by apply Hloop in Hk. }
    destruct (kwargs !! k) as [v|] eqn:Hv; [done|].
    apply elem_of_app in Hk as [Hk|Hk].
    - destruct (Hall k Hk) as [w Hw]. congruence.
    - by rewrite decide_True. }
  destruct (to_dict_total (built c kwargs)) as [td Htd].
  { intros k Hk. rewrite (Hattr k Hk). destruct (kwargs !! k); by eexists. }
  fold (built c kwargs).
  exists (td ∪ {[ "kind" := VStr (kind c) ]}).
  assert (JobBase.serialize (built c kwargs)
          = Ok (td ∪ {[ "kind" := VStr (kind c) ]})) as Hser.
  { unfold JobBase.serialize. by rewrite Htd. }
  split; [done|]. split; [|split].
  - rewrite (serialize_lookup _ _ "kind" Hser). cbn [built cls].
    by rewrite decide_False, decide_True.
  - intros k Hk. rewrite (serialize_lookup _ _ k Hser). cbn [built cls].
    rewrite decide_True by done. unfold populated. rewrite (Hattr k Hk).
    destruct (kwargs !! k) as [[]|]; try done.
    + rewrite decide_False; [done|]. intros ->. by apply Hkind in Hk.
    + rewrite decide_False; [done|]. intros ->. by apply Hkind in Hk.
  - intros k Hk Hne. rewrite (serialize_lookup _ _ k Hser). cbn [built cls].
    by rewrite !decide_False.
Qed.

Lemma construct_serialize_witness :
  let kwargs : pydict :=
    {[ "url" := VStr "http://example.org/"; "method" := VNone;
       "colour" := VStr "red" ]} in
  ∃ d, JobBase.serialize (built UrlJob.class kwargs) = Ok d ∧
       d !! "kind" = Some (VStr "url") ∧
       d !! "url" = Some (VStr "http://example.org/") ∧
       d !! "method" = None ∧
       d !! "colour" = None.
Proof.
  intros kwargs.
  destruct (construct_serialize UrlJob.class kwargs (built UrlJob.class kwargs))
    as (d & Hd & Hk & Hf & Hu).
  - vm_compute. reflexivity.
  - split; [|done]. intros H. apply list_elem_of_In in H. cbn in H.
    decompose [or] H; done.
  - exists d. split; [exact Hd|]. split; [exact Hk|].
    assert (∀ k, In k (fields UrlJob.class) → k ∈ fields UrlJob.class) as Hin.
    { intros k Hin. by apply list_elem_of_In. }
    split; [|split].
    + rewrite (Hf "url"); [vm_compute; reflexivity|]. apply Hin. cbn. tauto.
    + rewrite (Hf "method"); [vm_compute; reflexivity|]. apply Hin. cbn. tauto.
    + apply Hu; [|done]. intros H. apply list_elem_of_In in H. cbn in H.
      decompose [or] H; done.
Defined.

(** ** More on [unserialize] *)




(** X14.  Without [kind], a record that no registered class matches is
    refused with the no-match [ValueError].  This is the case of a record
    holding a field that no registered class declares, even when the rest of
    the record fits a class, and of a record lacking a required field of each
    class. *)
Theorem unserialize_no_match (registry : list jobclass) (data : pydict) :
  data !! "kind" = None →
  let refused :=
    unserialize registry data =
      Raise (ValueError "Kind is not specified, and no job matches: %r"
               [ArgDict data]) in
  ((∀ c, c ∈ registry → ¬ kind_matches data c) → refused) ∧
  (∀ f, is_Some (data !! f) → (∀ c, c ∈ registry → f ∉ fields c) → refused) ∧
  ((∀ c, c ∈ registry → ∃ r, r ∈ required c ∧ data !! r = None) → refused).
Proof.
  intros Hkind refused.
  assert ((∀ c, c ∈ registry → ¬ kind_matches data c) → refused) as Hgen.
  { intros Hno. unfold refused, unserialize, contains. rewrite Hkind.
    cbn [negb].
    destruct (autodetect registry data) as [|k ks] eqn:Ha; [done|].
    assert (k ∈ autodetect registry data) as Hin by (rewrite Ha; by left).
    apply autodetect_elem_of in Hin as (c & Hc & _ & Hm).
    apply matches_kind_matches in Hm. by destruct (Hno c Hc). }
  split; [done|]. split.
  - intros f Hf Hno. apply Hgen. intros c Hc [_ Hsub].
    apply (Hno c Hc).
    assert (f ∈ dom data) as Hd by (by apply elem_of_dom).
    apply Hsub in Hd. by apply elem_of_list_to_set in Hd.
  - intros Hno. apply Hgen. intros c Hc [Hsub _].
    destruct (Hno c Hc) as (r & Hr & Hnone).
    assert (r ∈ dom data) as Hin.
    { apply Hsub. by apply elem_of_list_to_set. }
    apply elem_of_dom in Hin as [v Hv]. congruence.
Qed.

Lemma unserialize_no_match_witness :
  let data : pydict := {[ "url" := VStr "http://example.org/"; "colour" := VStr "red" ]} in
  unserialize jobs_registry data =
    Raise (ValueError "Kind is not specified, and no job matches: %r" [ArgDict data]).
Proof.
  intros data.
  assert (data !! "kind" = None) as Hkind by (vm_compute; reflexivity).
  destruct (unserialize_no_match jobs_registry data Hkind) as (_ & Hforeign & _).
  apply (Hforeign "colour").
  - vm_compute. by eexists.
  - intros c Hc. apply list_elem_of_In in Hc. cbn in Hc.
    decompose [or] Hc; try done; subst c; intros H;
      apply list_elem_of_In in H; cbn in H; decompose [or] H; done.
Defined.

(** X15.  A job that [unserialize] built from a record whose required
    fields are not [None] is a fixed point of the round trip: serialising it
    and unserialising the result gives the very same job, attribute for
    attribute. *)
Theorem unserialize_fixed_point
    (registry : list jobclass) (data : pydict) (j : job) :
  registry_ok registry →
  unserialize registry data = Ok j →
  class_ok (cls j) →
  (∀ k, k ∈ required (cls j) → data !! k ≠ Some VNone) →
  ∃ d, JobBase.serialize j = Ok d ∧ unserialize registry d = Ok j.
Proof.
  intros Hreg Hun Hclass Hnn.
  destruct (unserialize_inv _ _ _ Hun) as (c & Hc & Hfrom).
  unfold from_dict in Hfrom.
  set (kwargs := filter _ data) in Hfrom.
  assert (∀ k, kwargs !! k = if decide (k ∈ fields c) then data !! k else None)
    as Hkw by (intros k; apply filter_declared_lookup).
  pose proof Hfrom as [Hall Hj]%construct_inv.
  assert (cls j = c) as Hcls by (by rewrite Hj).
  rewrite Hcls in Hclass, Hnn.
  assert (job_valid j) as Hvalid.
  { apply (construct_valid c kwargs); [done| |].
    - intros k Hk. rewrite Hkw. destruct (decide _); [by apply Hnn|done].
    - intros Ha Hl. apply (proj2 Hclass Ha), elem_of_app. by left. }
  destruct (to_dict_total j) as [td Htd].
  { intros k Hk. by apply job_valid_attrs. }
  exists (td ∪ {[ "kind" := VStr (kind (cls j)) ]}). split.
  { unfold JobBase.serialize. by rewrite Htd. }
  rewrite (unserialize_serialized registry j td Hvalid); try done.
  2:{ by rewrite Hcls. }
  2:{ rewrite Hcls. by apply getitem_registered. }
  f_equal. rewrite Hcls.
  transitivity {| cls := c; attrs := init_attrs c kwargs |}; [|done].
  unfold built. f_equal.
  apply map_eq. intros k. rewrite !init_attrs_lookup.
  destruct (decide (is_async c = true ∧ k = "loop")); [done|].
  rewrite (to_dict_lookup _ _ k Htd), Hcls, Hkw.
  destruct (decide (k ∈ fields c)) as [Hin|Hnin]; [|done].
  assert (attrs j !! k = match data !! k with
                         | Some v => Some v
                         | None => if decide (k ∈ optional c) then Some VNone else None
                         end) as Hattr.
  { rewrite Hj. cbn [attrs]. rewrite init_attrs_lookup, decide_False, Hkw by done.
    by rewrite decide_True. }
  unfold populated. rewrite Hattr.
  assert (k ∈ required c → ∃ v, data !! k = Some v ∧ v ≠ VNone) as Hreq.
  { intros Hk. destruct (Hall k Hk) as [v Hv]. rewrite Hkw, decide_True in Hv by done.
    exists v. split; [done|]. intros ->. by apply (Hnn k). }
  destruct (data !! k) as [v|] eqn:Hv.
  - destruct v; try done.
    apply elem_of_app in Hin as [Hin|Hin].
    + destruct (Hreq Hin) as (w & [= <-] & Hne). done.
    + by rewrite decide_True.
  - apply elem_of_app in Hin as [Hin|Hin].
    + by destruct (Hreq Hin) as (w & [=] & _).
    + by rewrite decide_True.
Qed.

Lemma unserialize_fixed_point_witness :
  let data : pydict :=
    {[ "kind" := VStr "url"; "url" := VStr "http://example.org/";
       "colour" := VStr "red" ]} in
  let j := built UrlJob.class {[ "url" := VStr "http://example.org/" ]} in
  unserialize jobs_registry data = Ok j ∧
  ∃ d, JobBase.serialize j = Ok d ∧ unserialize jobs_registry d = Ok j.
Proof.
  intros data j.
  assert (unserialize jobs_registry data = Ok j) as Hj
    by (vm_compute; reflexivity).
  split; [exact Hj|].
  apply (unserialize_fixed_point jobs_registry data j jobs_registry_ok Hj).
  - split; [|done]. intros H. apply list_elem_of_In in H. cbn in H.
    decompose [or] H; done.
  - intros k Hk. apply list_elem_of_In in Hk. cbn in Hk.
    destruct Hk as [<-|[]]. vm_compute. done.
Defined.

(** ** Identity across the round trip *)

(** X16.  The round trip keeps what identifies a job.  For a valid job of a
    registered class whose location is one of its declared fields, the job
    rebuilt by [unserialize] from the serialised record has the same
    location and the same GUID; when the class also declares [name], it has
    the same pretty name. *)
Theorem round_trip_keeps_identity (registry : list jobclass) (j : job) (a : string) :
  job_valid j → class_ok (cls j) → registered registry (cls j) →
  location_attr (cls j) = Some a → a ∈ fields (cls j) →
  ∃ d j',
    JobBase.serialize j = Ok d ∧
    unserialize registry d = Ok j' ∧
    JobBase.get_location j' = JobBase.get_location j ∧
    JobBase.get_guid j' = JobBase.get_guid j ∧
    ("name" ∈ fields (cls j) → Job_pretty_name j' = Job_pretty_name j).
Proof.
  intros Hvalid Hclass Hreg Hloc Ha.
  destruct (to_dict_total j) as [td Htd].
  { intros k Hk. by apply job_valid_attrs. }
  exists (td ∪ {[ "kind" := VStr (kind (cls j)) ]}), (built (cls j) td).
  assert (JobBase.get_location (built (cls j) td) = JobBase.get_location j) as Hl.
  { unfold JobBase.get_location, getattr. cbn [built cls]. rewrite Hloc.
    by rewrite (rebuilt_attrs j td Hvalid Hclass Htd a Ha). }
  split; [unfold JobBase.serialize; by rewrite Htd|].
  split; [by apply unserialize_serialized|].
  split; [done|]. split.
  - unfold JobBase.get_guid. by rewrite Hl.
  - intros Hn. unfold Job_pretty_name, getattr.
    by rewrite (rebuilt_attrs j td Hvalid Hclass Htd "name" Hn), Hl.
Qed.

Lemma round_trip_keeps_identity_witness :
  let j := built BrowserJob.class
             {[ "navigate" := VStr "http://example.org/"; "name" := VStr "Example" ]} in
  ∃ d j',
    JobBase.serialize j = Ok d ∧
    unserialize jobs_registry d = Ok j' ∧
    JobBase.get_guid j' = JobBase.get_guid j ∧
    Job_pretty_name j' = Job_pretty_name j.
Proof.
  intros j.
  destruct (round_trip_keeps_identity jobs_registry j "navigate")
    as (d & j' & Hd & Hj' & _ & Hg & Hn).
  - apply (construct_valid BrowserJob.class
             {[ "navigate" := VStr "http://example.org/"; "name" := VStr "Example" ]}).
    + vm_compute. reflexivity.
    + intros k Hk. apply list_elem_of_In in Hk. cbn in Hk.
      destruct Hk as [<-|[]]. vm_compute. done.
    + intros _ H. apply list_elem_of_In in H. cbn in H. decompose [or] H; done.
  - split; [intros Hx|intros _ Hx]; apply list_elem_of_In in Hx; cbn in Hx;
      decompose [or] Hx; done.
  - vm_compute. reflexivity.
  - reflexivity.
  - apply list_elem_of_In. cbn. tauto.
  - exists d, j'. do 3 (split; [done|]). apply Hn.
    apply list_elem_of_In. cbn. tauto.
Defined.

(** X17.  For a job constructed from a field map, the GUID is defined
    exactly when the value given for the location field is a str: a str
    gives the SHA-1 hex digest of its UTF-8 encoding, any other value, [None]
    included, makes [get_guid] raise [AttributeError]; a class that does not
    define [get_location] makes it raise [NotImplementedError]. *)
Theorem constructed_guid (c : jobclass) (kwargs : pydict) (j : job) :
  construct c kwargs = Ok j →
  (location_attr c = None → JobBase.get_guid j = Raise NotImplementedError) ∧
  (∀ a v, location_attr c = Some a → kwargs !! a = Some v →
          ¬ (is_async c = true ∧ a = "loop") →
          (∀ loc, v = VStr loc →
                  JobBase.get_guid j = Ok (SHA1.hexdigest (encode_utf8 loc))) ∧
          ((∀ loc, v ≠ VStr loc) →
           JobBase.get_guid j = Raise (AttributeError "encode"))).
Proof.
  intros [_ ->]%construct_inv. fold (built c kwargs). split.
  - intros Hn. unfold JobBase.get_guid, JobBase.get_location. cbn [built cls].
    by rewrite Hn.
  - intros a v Ha Hv Hl. unfold JobBase.get_guid.
    rewrite (built_location c kwargs a v Ha Hv Hl). cbn [mbind result_bind].
    split; [by intros loc ->|]. intros Hns. destruct v; try done.
    by destruct (Hns s).
Qed.

Lemma constructed_guid_witness :
  JobBase.get_guid (built ShellJob.class {[ "command" := VNone ]})
    = Raise (AttributeError "encode").
Proof.
  destruct (constructed_guid ShellJob.class {[ "command" := VNone ]}
              (built ShellJob.class {[ "command" := VNone ]})) as [_ H].
  - vm_compute. reflexivity.
  - assert (({[ "command" := VNone ]} : pydict) !! "command" = Some VNone) as Hv
      by (vm_compute; reflexivity).
    destruct (H "command" VNone eq_refl Hv) as [_ Hbad]; [by intros [[=] _]|].
    by apply Hbad.
Defined.

(** ** The shared browser *)

(** X18.  The browser is launched once and closed once.  [setup] launches
    it only when none is set: with a browser already set, [setup] only
    attaches the loop, whatever the loop's state and the outcome of a launch
    would be; with none set and an idle loop it stores the browser launched,
    or raises what the launch raises and stores none.  [cleanup], once its
    checks pass, closes the browser that is set and clears it; with none set
    it does nothing whatever closing would do; and when closing raises, the
    browser stays set. *)
Theorem browser_shared_lifecycle (w : world) (self : job) (l : nat) :
  (∀ rt b loop, browser w = Some b →
     BrowserJob.setup rt w self loop = (Ok tt, AsyncJob.setup self loop, w)) ∧
  (∀ rt, browser w = None → running w l = false →
     BrowserJob.setup rt w self (VLoop l) =
       match launch rt with
       | Ok b => (Ok tt, AsyncJob.setup self (VLoop l),
                  {| running := running w; browser := Some b |})
       | Raise e => (Raise e, AsyncJob.setup self (VLoop l), w)
       end) ∧
  (attrs self !! "loop" = Some (VLoop l) → running w l = false →
   (∀ rt, browser w = None → BrowserJob.cleanup rt w self = (Ok tt, w)) ∧
   (∀ rt b, browser w = Some b →
      BrowserJob.cleanup rt w self =
        match browser_close rt b with
        | Ok _ => (Ok tt, {| running := running w; browser := None |})
        | Raise e => (Raise e, w)
        end)).
Proof.
  split; [|split].
  - intros rt b loop Hb. unfold BrowserJob.setup. by rewrite Hb.
  - intros rt Hb Hr. unfold BrowserJob.setup, BrowserJob.run_until_complete.
    rewrite Hb. cbn. rewrite Hr. by destruct (launch rt).
  - intros Hl Hr.
    assert (AsyncJob.cleanup w self = Ok tt) as Hc.
    { unfold AsyncJob.cleanup, getattr. rewrite Hl. cbn. by rewrite Hr. }
    split.
    + intros rt Hb. unfold BrowserJob.cleanup. by rewrite Hc, Hb.
    + intros rt b Hb. unfold BrowserJob.cleanup, BrowserJob.run_until_complete,
        getattr. rewrite Hc, Hb, Hl. cbn. rewrite Hr.
      by destruct (browser_close rt b).
Qed.

Lemma browser_shared_lifecycle_witness :
  let rt := example_runtime (example_response 200 None []) in
  let j1 := built BrowserJob.class {[ "navigate" := VStr "http://example.org/a" ]} in
  let j2 := built BrowserJob.class {[ "navigate" := VStr "http://example.org/b" ]} in
  let w1 := {| running := running idle_world; browser := Some 1%nat |} in
  BrowserJob.setup rt idle_world j1 (VLoop 0) = (Ok tt, AsyncJob.setup j1 (VLoop 0), w1) ∧
  BrowserJob.setup rt w1 j2 (VLoop 0) = (Ok tt, AsyncJob.setup j2 (VLoop 0), w1) ∧
  BrowserJob.cleanup rt w1 (AsyncJob.setup j1 (VLoop 0)) = (Ok tt, idle_world) ∧
  BrowserJob.cleanup rt idle_world (AsyncJob.setup j2 (VLoop 0)) = (Ok tt, idle_world).
Proof.
  intros rt j1 j2 w1.
  destruct (browser_shared_lifecycle idle_world j1 0%nat) as (_ & Hs1 & _).
  destruct (browser_shared_lifecycle w1 j2 0%nat) as (Hs2 & _ & _).
  destruct (browser_shared_lifecycle w1 (AsyncJob.setup j1 (VLoop 0)) 0%nat)
    as (_ & _ & Hc1).
  destruct (browser_shared_lifecycle idle_world (AsyncJob.setup j2 (VLoop 0)) 0%nat)
    as (_ & _ & Hc2).
  split; [exact (Hs1 rt eq_refl eq_refl)|].
  split; [exact (Hs2 rt 1%nat (VLoop 0) eq_refl)|].
  split.
  - destruct Hc1 as [_ Hc1]; [vm_compute; reflexivity|reflexivity|].
    exact (Hc1 rt 1%nat eq_refl).
  - destruct Hc2 as [Hc2 _]; [vm_compute; reflexivity|reflexivity|].
    exact (Hc2 rt eq_refl).
Defined.
